(** * BOM Space ERP: the JSON record store, the upload registry and the
      role checks of [bom.py]

    The program is a single Streamlit script.  Its storage helpers
    ([load_data], [save_data], [add_upload], [replace_upload],
    [remove_upload], [get_messages], [find_user]) and the permission
    checks inlined in its tabs are embedded here as functions over an
    explicit world: the JSON data file, the upload directory and a trace
    of the writes performed.

    Python dictionaries with a fixed set of keys are records; a key read
    with [.get] is an [option] field; integers are [Z]; file names,
    timestamps, roles and PINs are strings.  The two sources of
    non-determinism of the helpers, [uuid.uuid4().hex] and
    [datetime.utcnow().isoformat()], are passed in as arguments.

    Strings are ASCII text: [lower] and [strip] follow [str.lower] and
    [str.strip] on that range.  Failures of the disk itself (a full or
    read-only medium) are outside the model; the one exception the script
    depends on, [os.remove] on a missing file, is modelled. *)

From Stdlib Require Import ZArith String Ascii List Lia.
From stdpp Require Import base tactics option list gmap strings pretty.

Local Open Scope string_scope.
Local Open Scope list_scope.
Local Open Scope Z_scope.

(** ** Data model *)

(** An uploaded file as handed over by the file-uploader widget:
    [file_obj.name] and [file_obj.getbuffer()]. *)
Record FileObj := mkFileObj {
  fo_name : string;
  fo_buffer : list Byte.byte
}.

(** An entry of [d["uploads"]], with the keys [add_upload] writes. *)
Record Upload := mkUpload {
  up_id : Z;
  up_project_id : Z;
  up_project_name : string;
  up_team : string;
  up_uploaded_by : string;
  up_filename : string;
  up_original_name : string;
  up_ts : string;
  up_final : bool
}.

(** An entry of [u["roles"]], appended by the Assigning tab. *)
Record RoleEntry := mkRoleEntry {
  re_role : string;
  re_team : string;
  re_project : string;
  re_pin : option string
}.

(** An entry of [d["users"]].  [team], [pin], [project] and [roles] are
    read with [.get] in the script, hence optional. *)
Record User := mkUser {
  usr_id : Z;
  usr_name : string;
  usr_role : string;
  usr_team : option string;
  usr_pin : option string;
  usr_project : option string;
  usr_roles : option (list RoleEntry)
}.

Record Project := mkProject {
  pr_id : Z;
  pr_name : string;
  pr_teams : list string
}.

(** An entry of [d["messages"]]; every key is read with [.get]. *)
Record Message := mkMessage {
  msg_from : string;
  msg_to : option string;
  msg_project : option string;
  msg_team : option string;
  msg_text : string;
  msg_ts : string
}.

Record Dashboard := mkDashboard {
  db_name : string;
  db_project_id : Z;
  db_team : string;
  db_file : string
}.

(** The JSON document.  A collection is [None] when its key is missing
    from the file. *)
Record Document := mkDocument {
  users : option (list User);
  projects : option (list Project);
  uploads : option (list Upload);
  messages : option (list Message);
  dashboards : option (list Dashboard)
}.

(** [d.get(key, [])] *)
Definition get_list {A} (o : option (list A)) : list A := default [] o.

(** [d["uploads"] = l] *)
Definition set_uploads (d : Document) (l : list Upload) : Document :=
  {| users := users d; projects := projects d; uploads := Some l;
     messages := messages d; dashboards := dashboards d |}.

(** [d["users"] = l] *)
Definition set_users (d : Document) (l : list User) : Document :=
  {| users := Some l; projects := projects d; uploads := uploads d;
     messages := messages d; dashboards := dashboards d |}.

(** ** The world: data file, upload directory, trace of writes *)

Inductive Event :=
| EvSave (d : Document)      (* the data file is rewritten with [d] *)
| EvWriteBlob (k : string)   (* a file [k] is written under UPLOAD_DIR *)
| EvUnlink (k : string).     (* the file [k] under UPLOAD_DIR is deleted *)

Record World := mkWorld {
  data_file : option Document;              (* None: DATA_FILE does not exist *)
  upload_dir : gmap string (list Byte.byte);
  trace : list Event
}.

(** A state monad over the world. *)
Definition IO (A : Type) : Type := World → A * World.

#[export] Instance IO_ret : MRet IO := λ A a w, (a, w).
#[export] Instance IO_bind : MBind IO :=
  λ A B f m w, let '(a, w') := m w in f a w'.

(** ** Data helpers *)

Definition init_doc : Document :=
  {| users := Some []; projects := Some []; uploads := Some [];
     messages := Some []; dashboards := Some [] |}.

(** [DATA_FILE.write_text(json.dumps(d))] and [json.dump(d, f)] *)
Definition write_data_file (d : Document) : IO unit := λ w,
  (tt, {| data_file := Some d; upload_dir := upload_dir w;
          trace := trace w ++ [EvSave d] |}).

Definition load_data : IO Document := λ w,
  match data_file w with
  | Some d => (d, w)
  | None => let '(_, w') := write_data_file init_doc w in (init_doc, w')
  end.

Definition save_data (d : Document) : IO unit := write_data_file d.

(** [with open(UPLOAD_DIR / fname, "wb") as f: f.write(buf)] *)
Definition write_blob (fname : string) (buf : list Byte.byte) : IO unit := λ w,
  (tt, {| data_file := data_file w; upload_dir := <[fname := buf]> (upload_dir w);
          trace := trace w ++ [EvWriteBlob fname] |}).

(** [if p.exists(): p.unlink()] inside [try ... except: pass] *)
Definition unlink_if_exists (fname : string) : IO unit := λ w,
  match upload_dir w !! fname with
  | Some _ =>
      (tt, {| data_file := data_file w; upload_dir := delete fname (upload_dir w);
              trace := trace w ++ [EvUnlink fname] |})
  | None => (tt, w)
  end.

(** [max(l, default=d)]: the default is used for the empty list only. *)
Definition py_max (l : list Z) (dflt : Z) : Z :=
  match l with
  | [] => dflt
  | x :: xs => foldl Z.max x xs
  end.

(** [f"{uuid.uuid4().hex}_{file_obj.name}"] *)
Definition storage_name (uuid_hex : string) (file_obj : FileObj) : string :=
  uuid_hex +:+ "_" +:+ fo_name file_obj.

Definition add_upload (uuid_hex now : string)
    (project_id : Z) (project_name team uploaded_by : string)
    (file_obj : FileObj) (final : bool) : IO Upload :=
  d ← load_data;
  let ts := now in
  let fname := storage_name uuid_hex file_obj in
  _ ← write_blob fname (fo_buffer file_obj);
  let entry :=
    {| up_id := py_max (up_id <$> get_list (uploads d)) 0 + 1;
       up_project_id := project_id;
       up_project_name := project_name;
       up_team := team;
       up_uploaded_by := uploaded_by;
       up_filename := fname;
       up_original_name := fo_name file_obj;
       up_ts := ts;
       up_final := final |} in
  _ ← save_data (set_uploads d (get_list (uploads d) ++ [entry]));
  mret entry.

(** The body of [replace_upload] run on the first record with the id: the
    record at position [i] of [d["uploads"]] is updated in place. *)
Definition replace_at (uuid_hex now : string) (d : Document) (i : nat) (u : Upload)
    (file_obj : FileObj) (uploaded_by : string) : IO (option Upload) :=
  _ ← unlink_if_exists (up_filename u);
  let fname := storage_name uuid_hex file_obj in
  _ ← write_blob fname (fo_buffer file_obj);
  let u' :=
    {| up_id := up_id u;
       up_project_id := up_project_id u;
       up_project_name := up_project_name u;
       up_team := up_team u;
       up_uploaded_by := uploaded_by;
       up_filename := fname;
       up_original_name := fo_name file_obj;
       up_ts := now;
       up_final := up_final u |} in
  _ ← save_data (set_uploads d (<[i := u']> (get_list (uploads d))));
  mret (Some u').

(** [for u in d.get("uploads", []): if u["id"] == upload_id: ...; return u]
    followed by [return None]; [i] is the position of the head of [rest]
    in [d["uploads"]]. *)
Fixpoint replace_loop (uuid_hex now : string) (d : Document) (upload_id : Z)
    (file_obj : FileObj) (uploaded_by : string)
    (i : nat) (rest : list Upload) : IO (option Upload) :=
  match rest with
  | [] => mret None
  | u :: rest' =>
      if bool_decide (up_id u = upload_id)
      then replace_at uuid_hex now d i u file_obj uploaded_by
      else replace_loop uuid_hex now d upload_id file_obj uploaded_by (S i) rest'
  end.

Definition replace_upload (uuid_hex now : string) (upload_id : Z)
    (file_obj : FileObj) (uploaded_by : string) : IO (option Upload) :=
  d ← load_data;
  replace_loop uuid_hex now d upload_id file_obj uploaded_by 0%nat
    (get_list (uploads d)).

(** The loop of [remove_upload]; [new_uploads] is the accumulator. *)
Fixpoint remove_loop (upload_id : Z) (rest new_uploads : list Upload)
    : IO (list Upload) :=
  match rest with
  | [] => mret new_uploads
  | u :: rest' =>
      if bool_decide (up_id u = upload_id)
      then _ ← unlink_if_exists (up_filename u);
           remove_loop upload_id rest' new_uploads
      else remove_loop upload_id rest' (new_uploads ++ [u])
  end.

Definition remove_upload (upload_id : Z) : IO unit :=
  d ← load_data;
  new_uploads ← remove_loop upload_id (get_list (uploads d)) [];
  save_data (set_uploads d new_uploads).

(** ** The permission checks of the tabs *)

(** [tabs], as built after login. *)
Definition tabs (user : User) : list string :=
  let tabs := ["Personal"; "Central"; "Analysis"; "Messenger"] in
  let tabs :=
    if bool_decide (usr_role user ∈ ["project_lead"; "admin"; "superadmin"])
    then take 2 tabs ++ ["Final BOM"] ++ drop 2 tabs   (* tabs.insert(2, ..) *)
    else tabs in
  let tabs :=
    if bool_decide (usr_role user ∈ ["admin"; "superadmin"])
    then tabs ++ ["Assigning"; "Admin"]
    else tabs in
  tabs.

(** The [can_edit] flag of the Personal tab, computed for the upload [u]. *)
Definition can_edit_personal (user : User) (u : Upload) : bool :=
  let can_edit := false in
  let can_edit :=
    if bool_decide (usr_role user ∈ ["project_lead"; "admin"; "superadmin"])
    then true else can_edit in
  let can_edit :=
    if bool_decide (usr_role user = "team_lead")
       && bool_decide (usr_team user = Some (up_team u))
    then true else can_edit in
  let can_edit :=
    if bool_decide (usr_name user = up_uploaded_by u)
    then true else can_edit in
  can_edit.

(** The [can_edit] flag of the Central tab, computed inside the loop over
    the project's teams; [team] is the team whose uploads are listed. *)
Definition can_edit_central (user : User) (team : string) : bool :=
  let can_edit := false in
  let can_edit :=
    if bool_decide (usr_role user ∈ ["project_lead"; "admin"; "superadmin"])
    then true else can_edit in
  let can_edit :=
    if bool_decide (usr_role user = "team_lead")
       && bool_decide (usr_team user = Some team)
    then true else can_edit in
  can_edit.

(** [os.remove(path)]: [false] stands for the exception raised on a missing
    file. *)
Definition os_remove (fname : string) : IO bool := λ w,
  match upload_dir w !! fname with
  | Some _ =>
      (true, {| data_file := data_file w; upload_dir := delete fname (upload_dir w);
                trace := trace w ++ [EvUnlink fname] |})
  | None => (false, w)
  end.

(** The Remove button of the Final BOM tab for the listed upload [u]:
    the [try] block and its [except] branch.  [true] is the success
    message, [false] the error message. *)
Definition final_bom_remove (d : Document) (u : Upload) : IO bool :=
  removed ← os_remove (up_filename u);
  if (removed : bool)
  then _ ← save_data
             (set_uploads d
                (filter (λ x, up_id x ≠ up_id u) (get_list (uploads d))));
       mret true
  else mret false.

(** The Final BOM tab up to a click on Remove: [d = load_data()], then the
    role test around the buttons.  [None]: no button is drawn. *)
Definition final_bom_tab_remove (user : User) (u : Upload) : IO (option bool) :=
  d ← load_data;
  if bool_decide (usr_role user ∈ ["project_lead"; "admin"; "superadmin"])
  then r ← final_bom_remove d u; mret (Some r)
  else mret None.

(** ** Login *)

(** [str.lower] and [str.strip] on ASCII text. *)
Definition lower_ascii (c : ascii) : ascii :=
  let n := nat_of_ascii c in
  if ((65 <=? n) && (n <=? 90))%nat then ascii_of_nat (n + 32) else c.

Fixpoint lower (s : string) : string :=
  match s with
  | EmptyString => EmptyString
  | String c s' => String (lower_ascii c) (lower s')
  end.

Definition is_space (c : ascii) : bool :=
  let n := nat_of_ascii c in
  ((9 <=? n) && (n <=? 13) || (28 <=? n) && (n <=? 32))%nat.

Fixpoint lstrip (s : string) : string :=
  match s with
  | EmptyString => EmptyString
  | String c s' => if is_space c then lstrip s' else s
  end.

Definition rstrip (s : string) : string := String.rev (lstrip (String.rev s)).

Definition strip (s : string) : string := rstrip (lstrip s).

(** A value or the [KeyError] of [d[key]] on a missing key. *)
Inductive Res (A : Type) :=
| Ok (a : A)
| KeyError.
Arguments Ok {A} a.
Arguments KeyError {A}.

(** The test of the loop of [find_user]. *)
Definition name_role_match (name role : string) (u : User) : bool :=
  bool_decide (lower (usr_name u) = lower name)
  && bool_decide (usr_role u = role).

(** [for u in d["users"]: if ...: return u] followed by [return None] *)
Fixpoint find_user_in (us : list User) (name role : string) : option User :=
  match us with
  | [] => None
  | u :: us' =>
      if name_role_match name role u then Some u
      else find_user_in us' name role
  end.

Definition find_user (name role : string) : IO (Res (option User)) :=
  d ← load_data;
  match users d with
  | None => mret KeyError
  | Some us => mret (Ok (find_user_in us name role))
  end.

Inductive LoginResult :=
| LoggedIn (user : User)   (* st.session_state['user'] = user *)
| UserNotFound
| InvalidPin
| LoginCrashed.

(** The handler of the Login button. *)
Definition login (role_choice username pin : string) : IO LoginResult :=
  r ← find_user (strip username) role_choice;
  match r with
  | KeyError => mret LoginCrashed
  | Ok None => mret UserNotFound
  | Ok (Some user) =>
      if bool_decide (Some (strip pin) = usr_pin user)
      then mret (LoggedIn user)
      else mret InvalidPin
  end.

(** ** Messages *)

(** Truth value of an optional string argument: [None] and [""] are
    false. *)
Definition truthy (o : option string) : bool :=
  match o with
  | None => false
  | Some s => negb (bool_decide (s = ""))
  end.

Definition get_messages (project team : option string) : IO (list Message) :=
  d ← load_data;
  let msgs := get_list (messages d) in
  let msgs :=
    if truthy project then filter (λ m, msg_project m = project) msgs else msgs in
  let msgs :=
    if truthy team then filter (λ m, msg_team m = team) msgs else msgs in
  mret msgs.

(** The list [relevant] of the Messenger tab, for the selected project
    label and team. *)
Definition relevant_messages (user : User) (sel_proj_display : string)
    (sel_team : option string) : IO (list Message) :=
  msgs ← get_messages (Some sel_proj_display) sel_team;
  mret (filter (λ m, msg_to m ∈ [None; Some (usr_name user)]) msgs).

(** ** Admin tab: Reset PIN *)

(** [x["pin"] = "0000"] *)
Definition set_pin_0000 (x : User) : User :=
  {| usr_id := usr_id x; usr_name := usr_name x; usr_role := usr_role x;
     usr_team := usr_team x; usr_pin := Some "0000";
     usr_project := usr_project x; usr_roles := usr_roles x |}.

(** [for x in d.get("users", []): if x["id"] == u["id"]: x["pin"] = "0000"],
    an update in place of the records of the list. *)
Definition reset_pins_in (target_id : Z) (us : list User) : list User :=
  (λ x, if bool_decide (usr_id x = target_id) then set_pin_0000 x else x) <$> us.

(** The same loop on the document [d]: without a ["users"] key there is
    nothing to iterate over and [d] is left as it is. *)
Definition reset_pins (target_id : Z) (d : Document) : Document :=
  {| users := option_map (reset_pins_in target_id) (users d);
     projects := projects d; uploads := uploads d;
     messages := messages d; dashboards := dashboards d |}.

(** A click on the Reset PIN button drawn for the user with id
    [target_id], in a run of the script that loaded [d] at its start.
    [false]: access denied, nothing is done. *)
Definition admin_reset_pin (user : User) (d : Document) (target_id : Z) : IO bool :=
  if bool_decide (usr_role user ∉ ["admin"; "superadmin"])
  then mret false
  else _ ← save_data (reset_pins target_id d); mret true.

(** The Admin tab of a run of the script: [d = load_data()] at the start,
    then a click on Reset PIN for the user with id [target_id]. *)
Definition admin_tab_reset_pin (user : User) (target_id : Z) : IO bool :=
  d ← load_data;
  admin_reset_pin user d target_id.

(** ** Sequences of registry operations *)

(** The arguments of one call of [add_upload], with the uuid and the clock
    reading it draws. *)
Record CreateArgs := mkCreateArgs {
  ca_uuid_hex : string;
  ca_now : string;
  ca_project_id : Z;
  ca_project_name : string;
  ca_team : string;
  ca_uploaded_by : string;
  ca_file_obj : FileObj;
  ca_final : bool
}.

Definition create (a : CreateArgs) : IO Upload :=
  add_upload (ca_uuid_hex a) (ca_now a) (ca_project_id a) (ca_project_name a)
    (ca_team a) (ca_uploaded_by a) (ca_file_obj a) (ca_final a).

Inductive Op :=
| OpCreate (a : CreateArgs)
| OpRemove (upload_id : Z).

(** Runs the operations in order and returns the ids assigned by the
    creates, oldest first. *)
Fixpoint run_ops (ops : list Op) : IO (list Z) :=
  match ops with
  | [] => mret []
  | OpCreate a :: ops' =>
      e ← create a; ids ← run_ops ops'; mret (up_id e :: ids)
  | OpRemove upload_id :: ops' =>
      _ ← remove_upload upload_id; run_ops ops'
  end.

(** The document a call of [load_data] would return in the world [w]. *)
Definition stored (w : World) : Document := (load_data w).1.

Definition stored_uploads (w : World) : list Upload := get_list (uploads (stored w)).

(** ** Further helpers and handlers of the script *)

Definition get_uploads_for_project (project_id : Z) : IO (list Upload) :=
  d ← load_data;
  mret (filter (λ u, up_project_id u = project_id) (get_list (uploads d))).

(** [d["messages"] = l] *)
Definition set_messages (d : Document) (l : list Message) : Document :=
  {| users := users d; projects := projects d; uploads := uploads d;
     messages := Some l; dashboards := dashboards d |}.

(** [save_message(frm, to, project, team, text)]; [now] is the clock
    reading. *)
Definition save_message (now frm : string) (to project team : option string)
    (text : string) : IO unit :=
  d ← load_data;
  let note :=
    {| msg_from := frm; msg_to := to; msg_project := project;
       msg_team := team; msg_text := text; msg_ts := now |} in
  save_data (set_messages d (get_list (messages d) ++ [note])).

(** The Send Message button of the Messenger tab.  [false]: the error
    "Enter a message". *)
Definition messenger_send (now : string) (user : User) (sel_proj_display : string)
    (sel_team : option string) (recipient msg_text : string) : IO bool :=
  if bool_decide (strip msg_text ≠ "")          (* if msg_text.strip(): *)
  then
    let to_user := if bool_decide (recipient ≠ "All") then Some recipient else None in
    _ ← save_message now (usr_name user) to_user (Some sel_proj_display) sel_team
          (strip msg_text);
    mret true
  else mret false.

(** [l[-n:]] for a positive [n] *)
Definition last_n {A} (n : nat) (l : list A) : list A := drop (length l - n) l.

(** The messages the Messenger tab writes out: [relevant[-50:]]. *)
Definition displayed_messages (user : User) (sel_proj_display : string)
    (sel_team : option string) : IO (list Message) :=
  relevant ← relevant_messages user sel_proj_display sel_team;
  mret (last_n 50 relevant).

(** The Remove button of the Admin tab for the user with id [target_id],
    in a run of the script that loaded [d].  [None]: access denied;
    [Some false]: "Only superadmin can remove users". *)
Definition admin_remove_user (user : User) (d : Document) (target_id : Z)
    : IO (option bool) :=
  if bool_decide (usr_role user ∉ ["admin"; "superadmin"])
  then mret None
  else if bool_decide (usr_role user ≠ "superadmin")
  then mret (Some false)
  else _ ← save_data
             (set_users d (filter (λ x, usr_id x ≠ target_id) (get_list (users d))));
       mret (Some true).

(** The body of the loop of the Assign / Update button on a user named
    [sel_name]. *)
Definition assign_user (new_role new_team new_project new_pin : string) (u : User)
    : User :=
  let roles := default [] (usr_roles u) in      (* if "roles" not in u: .. = [] *)
  let new_entry :=
    {| re_role := new_role; re_team := new_team; re_project := new_project;
       re_pin := if bool_decide (new_pin ≠ "") then Some (strip new_pin)
                 else usr_pin u |} in
  let roles :=
    if bool_decide (Exists (λ r, re_role r = new_role ∧ re_team r = new_team
                                 ∧ re_project r = new_project) roles)
    then roles else roles ++ [new_entry] in
  {| usr_id := usr_id u; usr_name := usr_name u;
     usr_role := new_role; usr_team := Some new_team;
     usr_pin := if bool_decide (new_pin ≠ "") then Some (strip new_pin)
                else usr_pin u;
     usr_project := Some new_project;
     usr_roles := Some roles |}.

(** [for u in d.get("users", []): if u["name"] == sel_name: ...] *)
Definition assign_in (sel_name new_role new_team new_project new_pin : string)
    (us : list User) : list User :=
  (λ u, if bool_decide (usr_name u = sel_name)
        then assign_user new_role new_team new_project new_pin u else u) <$> us.

(** The Assign / Update button of the Assigning tab, in a run of the
    script that loaded [d].  [false]: access denied, or no button. *)
Definition assigning_apply (user : User) (d : Document)
    (sel_name new_role new_team new_project new_pin : string) : IO bool :=
  if bool_decide (usr_role user ∉ ["admin"; "superadmin"])
  then mret false
  else
    match get_list (users d) with
    | [] => mret false                          (* "No users available." *)
    | _ :: _ =>
        _ ← save_data
              {| users := option_map
                            (assign_in sel_name new_role new_team new_project new_pin)
                            (users d);
                 projects := projects d; uploads := uploads d;
                 messages := messages d; dashboards := dashboards d |};
        mret true
    end.

(** The list [final_uploads] of the Final BOM tab. *)
Definition final_uploads (d : Document) (project_id : Z) : list Upload :=
  filter (λ u, up_project_id u = project_id ∧ up_final u = true)
    (get_list (uploads d)).

(** The Upload Final BOM button: [display] is the label of the selected
    project.  [None]: the widget is not drawn. *)
Definition final_bom_upload (uuid_hex now : string) (user : User) (proj : Project)
    (display : string) (new_final : FileObj) : IO (option Upload) :=
  if bool_decide (usr_role user = "project_lead")
  then
    entry ← add_upload uuid_hex now (pr_id proj) display
              (default "" (usr_team user))        (* user.get("team") or "" *)
              (usr_name user) new_final true;
    mret (Some entry)
  else mret None.

(** The loop that fills [project_display_map]; [idx] is the counter of
    [enumerate(.., start=1)]. *)
Fixpoint display_map_from (idx : nat) (ps : list Project) (m : gmap Z string)
    : gmap Z string :=
  match ps with
  | [] => m
  | p :: ps' =>
      display_map_from (S idx) ps' (<[pr_id p := "Project " +:+ pretty idx]> m)
  end.

Definition project_display_map (d : Document) : gmap Z string :=
  display_map_from 1 (get_list (projects d)) ∅.

(** [project_display_map.get(p["id"], p["name"])] *)
Definition display_name (m : gmap Z string) (p : Project) : string :=
  default (pr_name p) (m !! pr_id p).

(** [for p in options: if <label of p> == sel: proj = p; break] *)
Fixpoint find_project (m : gmap Z string) (sel : string) (options : list Project)
    : option Project :=
  match options with
  | [] => None
  | p :: options' =>
      if bool_decide (display_name m p = sel) then Some p
      else find_project m sel options'
  end.

(** Equality of upload records is decidable: a row of a listing is
    looked up by its record. *)
#[export] Instance Upload_eq_dec : EqDecision Upload.
Proof. solve_decision. Defined.

(** The projects offered by the Personal tab:
    [not user.get("team") or user.get("team") in p.get("teams", [])]. *)
Definition personal_projects (user : User) (d : Document) : list Project :=
  filter (λ p, truthy (usr_team user) = false
               ∨ default "" (usr_team user) ∈ pr_teams p)
    (get_list (projects d)).

(** The projects offered by the Central tab. *)
Definition central_projects (user : User) (d : Document) : list Project :=
  if bool_decide (usr_role user ∈ ["admin"; "superadmin"])
  then get_list (projects d)
  else personal_projects user d.

(** The two tabs that compute a [can_edit] flag; the Central tab works on
    the project whose label is chosen in its select box. *)
Inductive View :=
| PersonalView
| CentralView (sel_proj_display : string).

(** Whether the upload [u] gets a row in the view, in a run of the script
    that loaded [d].  The Personal tab lists nothing without a project to
    offer, and then the uploads with [u["uploaded_by"] == user["name"]]
    (sorted by time, which does not matter to who is listed).  The Central
    tab resolves the chosen label to a project, keeps the uploads of that
    project, and lists under each team of the project the uploads of that
    team. *)
Definition listed (v : View) (user : User) (d : Document) (u : Upload) : bool :=
  match v with
  | PersonalView =>
      match personal_projects user d with
      | [] => false                                (* "No projects assigned." *)
      | _ :: _ =>
          bool_decide
            (u ∈ filter (λ x, up_uploaded_by x = usr_name user)
                   (get_list (uploads d)))
      end
  | CentralView sel_proj_display =>
      match find_project (project_display_map d) sel_proj_display
              (central_projects user d) with
      | None => false                              (* "No projects available." *)
      | Some proj =>
          let proj_uploads :=
            filter (λ x, up_project_id x = pr_id proj) (get_list (uploads d)) in
          bool_decide
            (Exists (λ team, u ∈ filter (λ x, up_team x = team) proj_uploads)
               (pr_teams proj))
      end
  end.

(** Whether the Edit (replace) and Remove buttons are drawn in the row of
    [u]: the row exists and the [can_edit] flag computed for it is set.
    The Central tab computes the flag with the team under which the row
    is listed, which is [u["team"]].  Streamlit stops the script at the
    second widget with a key already in use, and the keys of the buttons
    are built from the upload id, so this describes the tabs for documents
    whose uploads carry distinct ids and whose projects name each team
    once; the theorems assume both. *)
Definition edit_remove_offered (v : View) (user : User) (d : Document)
    (u : Upload) : bool :=
  listed v user d u
  && match v with
     | PersonalView => can_edit_personal user u
     | CentralView _ => can_edit_central user (up_team u)
     end.

(** * Statements under test and sample data *)


Definition empty_world : World :=
  {| data_file := None; upload_dir := ∅; trace := [] |}.

Definition sample_create (uuid_hex now : string) : CreateArgs :=
  {| ca_uuid_hex := uuid_hex; ca_now := now; ca_project_id := 1;
     ca_project_name := "Project 1"; ca_team := "Design";
     ca_uploaded_by := "asha";
     ca_file_obj := {| fo_name := "bom.csv"; fo_buffer := [] |};
     ca_final := false |}.


Definition two_uploads_world : World :=
  ((create (sample_create "b2" "2024-01-01T10:01:00")
      (create (sample_create "a1" "2024-01-01T10:00:00") empty_world).2).2).

(** The rule of the claim: uploader, team lead of the upload's team, or
    one of the three leading roles. *)
Definition edit_rule (user : User) (u : Upload) : Prop :=
  usr_name user = up_uploaded_by u
  ∨ (usr_role user = "team_lead" ∧ usr_team user = Some (up_team u))
  ∨ usr_role user ∈ ["project_lead"; "admin"; "superadmin"].

(** The claim as worded, read in its favour: next to every upload a view
    lists, the rule decides the buttons. *)
Definition edit_rule_in_every_view : Prop :=
  ∀ (v : View) (user : User) (d : Document) (u : Upload),
    NoDup (up_id <$> get_list (uploads d)) →
    Forall (λ p, NoDup (pr_teams p)) (get_list (projects d)) →
    listed v user d u = true →
    (edit_remove_offered v user d u = true ↔ edit_rule user u).

Definition member_asha : User :=
  {| usr_id := 7; usr_name := "asha"; usr_role := "member";
     usr_team := Some "Design"; usr_pin := Some "1234";
     usr_project := None; usr_roles := None |}.

Definition asha_upload : Upload :=
  {| up_id := 1; up_project_id := 1; up_project_name := "Project 1";
     up_team := "Design"; up_uploaded_by := "asha";
     up_filename := "a1_bom.csv"; up_original_name := "bom.csv";
     up_ts := "2024-01-01T10:00:00"; up_final := false |}.

(** Case analysis on every equality test of a flag computation. *)
Ltac case_flags :=
  repeat match goal with
         | |- context [bool_decide ?P] => destruct (bool_decide_reflect P)
         end;
  simpl.

(** One project with the team Design, one member of that team and one
    upload of that member. *)
Definition design_doc : Document :=
  {| users := Some [member_asha];
     projects := Some [ {| pr_id := 1; pr_name := "Launcher";
                           pr_teams := ["Design"] |} ];
     uploads := Some [asha_upload];
     messages := Some []; dashboards := Some [] |}.

(** The record [replace_upload] writes in place of [u]. *)
Definition replaced (uuid_hex now : string) (file_obj : FileObj)
    (uploaded_by : string) (u : Upload) : Upload :=
  {| up_id := up_id u;
     up_project_id := up_project_id u;
     up_project_name := up_project_name u;
     up_team := up_team u;
     up_uploaded_by := uploaded_by;
     up_filename := storage_name uuid_hex file_obj;
     up_original_name := fo_name file_obj;
     up_ts := now;
     up_final := up_final u |}.

Definition replacement_file : FileObj :=
  {| fo_name := "bom_v2.csv"; fo_buffer := [] |}.

Definition lead_ravi : User :=
  {| usr_id := 2; usr_name := "ravi"; usr_role := "project_lead";
     usr_team := None; usr_pin := Some "4321";
     usr_project := None; usr_roles := None |}.

Definition final_upload : Upload :=
  {| up_id := 3; up_project_id := 1; up_project_name := "Project 1";
     up_team := ""; up_uploaded_by := "ravi";
     up_filename := "f9_final.csv"; up_original_name := "final.csv";
     up_ts := "2024-02-01T09:00:00"; up_final := true |}.

(** A stored final upload whose file is not in the upload directory. *)
Definition dangling_world : World :=
  {| data_file := Some (set_uploads init_doc [final_upload]);
     upload_dir := ∅; trace := [] |}.

Definition admin_mira : User :=
  {| usr_id := 1; usr_name := "mira"; usr_role := "admin";
     usr_team := None; usr_pin := Some "0007";
     usr_project := None; usr_roles := None |}.

(** The claim as worded, the supplied name and PIN being taken after the
    [strip] the handler applies to them. *)
Definition login_iff_some_user_matches : Prop :=
  ∀ (w : World) (role name pin : string),
    (∃ u : User, (login role name pin w).1 = LoggedIn u) ↔
    (∃ u : User,
        u ∈ get_list (users (stored w))
        ∧ lower (usr_name u) = lower (strip name)
        ∧ usr_role u = role
        ∧ usr_pin u = Some (strip pin)).

Definition asha_with_pin (id : Z) (pin : string) : User :=
  {| usr_id := id; usr_name := "Asha"; usr_role := "member";
     usr_team := Some "Design"; usr_pin := Some pin;
     usr_project := None; usr_roles := None |}.

(** Two stored records with the same name and role. *)
Definition twin_users_world : World :=
  {| data_file :=
       Some (set_users init_doc [asha_with_pin 7 "1111"; asha_with_pin 8 "2222"]);
     upload_dir := ∅; trace := [] |}.

(** The claim as worded: with a project and a team given, exactly the
    messages carrying both come back, in stored order. *)
Definition list_keeps_exactly_both_matches : Prop :=
  ∀ (w : World) (project team : string),
    (get_messages (Some project) (Some team) w).1
    = filter (λ m, msg_project m = Some project ∧ msg_team m = Some team)
        (get_list (messages (stored w))).

Definition tooling_note : Message :=
  {| msg_from := "ravi"; msg_to := None; msg_project := Some "Project 2";
     msg_team := Some "Tooling"; msg_text := "jigs ready";
     msg_ts := "2024-03-01T08:00:00" |}.

Definition one_message_world : World :=
  {| data_file :=
       Some {| users := Some []; projects := Some []; uploads := Some [];
               messages := Some [tooling_note]; dashboards := Some [] |};
     upload_dir := ∅; trace := [] |}.

(** Predicates and sample data for the further properties. *)

(** The key under which the Assigning tab looks for a duplicate entry. *)
Definition role_key (r : RoleEntry) : string * string * string :=
  (re_role r, re_team r, re_project r).

Definition is_create (op : Op) : Prop :=
  match op with
  | OpCreate _ => True
  | OpRemove _ => False
  end.

(** No two stored uploads carry the same id. *)
Definition ids_unique (w : World) : Prop := NoDup (up_id <$> stored_uploads w).

(** No two stored uploads name the same file. *)
Definition names_unique (w : World) : Prop :=
  NoDup (up_filename <$> stored_uploads w).

(** Every stored upload names a file of the upload directory. *)
Definition blobs_present (w : World) : Prop :=
  Forall (λ u, is_Some (upload_dir w !! up_filename u)) (stored_uploads w).

Definition stored_final_world : World :=
  {| data_file := Some (set_uploads init_doc [final_upload]);
     upload_dir := {[ "f9_final.csv" := [] ]}; trace := [] |}.

Definition two_projects_doc : Document :=
  {| users := Some [];
     projects := Some [ {| pr_id := 10; pr_name := "Launcher";
                           pr_teams := ["Design"; "Tooling"] |};
                        {| pr_id := 20; pr_name := "Capsule";
                           pr_teams := ["Design"] |} ];
     uploads := Some []; messages := Some []; dashboards := Some [] |}.

Definition is_save (e : Event) : Prop :=
  match e with
  | EvSave _ => True
  | _ => False
  end.

(** * Properties *)

(** ** Generic facts about the helpers *)

Lemma foldl_max_ge (xs : list Z) (a : Z) :
  a ≤ foldl Z.max a xs ∧ Forall (λ x, x ≤ foldl Z.max a xs) xs.
Proof.
  revert a. induction xs as [|x xs IH]; intros a; simpl.
  - split; [lia | constructor].
  - destruct (IH (Z.max a x)) as [Hle Hall]. split; [lia |].
    constructor; [lia | exact Hall].
Qed.

Lemma py_max_ge (l : list Z) (dflt x : Z) : x ∈ l → x ≤ py_max l dflt.
Proof.
  destruct l as [|y ys]; [intros Hin; by apply elem_of_nil in Hin |].
  intros Hin. simpl. destruct (foldl_max_ge ys y) as [Hy Hys].
  apply elem_of_cons in Hin as [-> | Hin]; [done |].
  by apply (proj1 (Forall_forall _ _) Hys).
Qed.

Lemma load_data_stored (w : World) :
  data_file (load_data w).2 = Some (stored w).
Proof. unfold stored, load_data. by destruct (data_file w) eqn:E. Qed.

Lemma load_data_idem (w : World) : stored (load_data w).2 = stored w.
Proof.
  unfold stored, load_data. destruct (data_file w) eqn:E; simpl; [by rewrite E | done].
Qed.

Lemma stored_data_file (w : World) (d : Document) :
  data_file w = Some d → stored w = d.
Proof. unfold stored, load_data. by intros ->. Qed.

(** What [add_upload] returns and stores. *)
Lemma add_upload_spec uuid_hex now project_id project_name team uploaded_by
    file_obj final (w : World) :
  let d := stored w in
  let entry :=
    {| up_id := py_max (up_id <$> get_list (uploads d)) 0 + 1;
       up_project_id := project_id; up_project_name := project_name;
       up_team := team; up_uploaded_by := uploaded_by;
       up_filename := storage_name uuid_hex file_obj;
       up_original_name := fo_name file_obj; up_ts := now;
       up_final := final |} in
  ∃ w', add_upload uuid_hex now project_id project_name team uploaded_by
          file_obj final w = (entry, w')
        ∧ data_file w' = Some (set_uploads d (get_list (uploads d) ++ [entry])).
Proof.
  unfold add_upload, stored, load_data, mbind, IO_bind, mret, IO_ret.
  destruct (data_file w); simpl; eexists; split; reflexivity.
Qed.

Lemma remove_loop_spec (upload_id : Z) (rest acc : list Upload) (w : World) :
  (remove_loop upload_id rest acc w).1
  = acc ++ filter (λ u, up_id u ≠ upload_id) rest
  ∧ data_file (remove_loop upload_id rest acc w).2 = data_file w.
Proof.
  revert acc w. induction rest as [|u rest IH]; intros acc w; simpl.
  - by rewrite app_nil_r.
  - rewrite filter_cons. case_bool_decide as Hid.
    + rewrite decide_False by (intros Hne; by apply Hne).
      unfold mbind, IO_bind.
      destruct (unlink_if_exists (up_filename u) w) as [[] w1] eqn:Hun.
      destruct (IH acc w1) as [-> ->]. split; [done |].
      unfold unlink_if_exists in Hun.
      destruct (upload_dir w !! up_filename u); by inversion Hun.
    + rewrite decide_True by done.
      destruct (IH (acc ++ [u]) w) as [-> ->].
      by rewrite <- app_assoc.
Qed.

(** What [remove_upload] stores: the records with another id, in order. *)
Lemma remove_upload_stored (upload_id : Z) (w : World) :
  stored_uploads (remove_upload upload_id w).2
  = filter (λ u, up_id u ≠ upload_id) (stored_uploads w).
Proof.
  unfold stored_uploads, remove_upload, mbind, IO_bind.
  destruct (load_data w) as [d w1] eqn:Hload.
  pose proof (remove_loop_spec upload_id (get_list (uploads d)) [] w1) as [Hl _].
  destruct (remove_loop upload_id (get_list (uploads d)) [] w1) as [l w2].
  simpl in Hl. subst l.
  unfold stored at 2. rewrite Hload. simpl. reflexivity.
Qed.

Lemma create_entry (a : CreateArgs) (w : World) :
  up_id (create a w).1 = py_max (up_id <$> stored_uploads w) 0 + 1
  ∧ stored_uploads (create a w).2 = stored_uploads w ++ [(create a w).1].
Proof.
  unfold create, stored_uploads.
  destruct (add_upload_spec (ca_uuid_hex a) (ca_now a) (ca_project_id a)
              (ca_project_name a) (ca_team a) (ca_uploaded_by a)
              (ca_file_obj a) (ca_final a) w) as (w' & -> & Hfile).
  simpl. split; [reflexivity |].
  by rewrite (stored_data_file _ _ Hfile).
Qed.

Lemma create_id_above (a : CreateArgs) (w : World) (u : Upload) :
  u ∈ stored_uploads w → up_id u < up_id (create a w).1.
Proof.
  intros Hin. destruct (create_entry a w) as [-> _].
  assert (up_id u ≤ py_max (up_id <$> stored_uploads w) 0); [| lia].
  apply py_max_ge, list_elem_of_fmap. by exists u.
Qed.

(** ** C1: allocation of upload ids *)





(** ** C2: who is offered Edit (replace) and Remove *)

Lemma can_edit_personal_true (user : User) (u : Upload) :
  can_edit_personal user u = true ↔ edit_rule user u.
Proof.
  unfold can_edit_personal, edit_rule.
  case_flags; (split; [intros Hflag | intros Hrule]; try done; tauto).
Qed.

Lemma can_edit_central_true (user : User) (team : string) :
  can_edit_central user team = true ↔
  (usr_role user = "team_lead" ∧ usr_team user = Some team)
  ∨ usr_role user ∈ ["project_lead"; "admin"; "superadmin"].
Proof.
  unfold can_edit_central.
  case_flags; (split; [intros Hflag | intros Hrule]; try done; tauto).
Qed.

(** The rows of the Personal tab: the user's own stored uploads, provided
    a project is offered. *)
Lemma listed_personal (user : User) (d : Document) (u : Upload) :
  listed PersonalView user d u = true ↔
  personal_projects user d ≠ []
  ∧ u ∈ get_list (uploads d)
  ∧ up_uploaded_by u = usr_name user.
Proof.
  unfold listed. destruct (personal_projects user d) as [|p ps].
  - split; [done | by intros [? _]].
  - rewrite bool_decide_eq_true, list_elem_of_filter.
    split; [intros [? ?] | intros (_ & ? & ?)]; done.
Qed.

(** The rows of the Central tab for the project the label resolves to. *)
Lemma listed_central (user : User) (d : Document) (u : Upload)
    (sel_proj_display : string) (proj : Project) :
  find_project (project_display_map d) sel_proj_display (central_projects user d)
  = Some proj →
  listed (CentralView sel_proj_display) user d u = true ↔
  u ∈ get_list (uploads d)
  ∧ up_project_id u = pr_id proj
  ∧ up_team u ∈ pr_teams proj.
Proof.
  intros Hproj. unfold listed. rewrite Hproj.
  rewrite bool_decide_eq_true, Exists_exists. split.
  - intros (team & Hteam & [Hu [Hpid Hin]%list_elem_of_filter]%list_elem_of_filter).
    by subst team.
  - intros (Hin & Hpid & Hteam). exists (up_team u). split; [done |].
    apply list_elem_of_filter. split; [done |]. by apply list_elem_of_filter.
Qed.

Example design_doc_central_row :
  listed (CentralView "Project 1") member_asha design_doc asha_upload = true
  ∧ edit_remove_offered (CentralView "Project 1") member_asha design_doc
      asha_upload = false.
Proof. split; vm_compute; reflexivity. Qed.

(** C2, as worded, fails in the Central tab: a member sees no Edit or
    Remove button there, also in the row of an upload of their own. *)
Lemma central_view_ignores_uploader : ¬ edit_rule_in_every_view.
Proof.
  intros H. destruct design_doc_central_row as [Hrow Hnone].
  assert (Hids : NoDup (up_id <$> get_list (uploads design_doc))) by compute_done.
  assert (Hteams : Forall (λ p, NoDup (pr_teams p))
                     (get_list (projects design_doc))) by compute_done.
  destruct (H (CentralView "Project 1") member_asha design_doc asha_upload
              Hids Hteams Hrow) as [_ Hrule].
  rewrite Hrule in Hnone; [discriminate |].
  left. reflexivity.
Qed.

(** C2 (amended): on a document whose uploads carry distinct ids, the
    Personal tab draws Edit and Remove in the rows of exactly the stored
    uploads whose uploader is the actor, provided a project is offered to
    the actor; the uploads of others have no row there, so the role
    clauses decide nothing.  The Central tab, for the project its label
    resolves to, draws them in the row of an upload of that project and of
    one of its teams exactly when the actor is the team lead of the
    upload's team or has one of the three leading roles; being the
    uploader does not count there. *)
Theorem can_edit_per_view (user : User) (d : Document) (u : Upload) :
  NoDup (up_id <$> get_list (uploads d)) →
  (edit_remove_offered PersonalView user d u = true ↔
     personal_projects user d ≠ []
     ∧ u ∈ get_list (uploads d)
     ∧ usr_name user = up_uploaded_by u)
  ∧ (∀ (sel_proj_display : string) (proj : Project),
        find_project (project_display_map d) sel_proj_display
          (central_projects user d) = Some proj →
        NoDup (pr_teams proj) →
        (edit_remove_offered (CentralView sel_proj_display) user d u = true ↔
           (u ∈ get_list (uploads d)
            ∧ up_project_id u = pr_id proj
            ∧ up_team u ∈ pr_teams proj)
           ∧ ((usr_role user = "team_lead" ∧ usr_team user = Some (up_team u))
              ∨ usr_role user ∈ ["project_lead"; "admin"; "superadmin"]))).
Proof.
  intros _. unfold edit_remove_offered. split.
  - rewrite andb_true_iff, listed_personal, can_edit_personal_true.
    unfold edit_rule. split.
    + by intros [(? & ? & ?) _].
    + intros (? & ? & ?). split; [done |]. by left.
  - intros sel_proj_display proj Hproj _.
    by rewrite andb_true_iff, (listed_central _ _ _ _ _ Hproj),
      can_edit_central_true.
Qed.

Lemma can_edit_per_view_witness :
  (NoDup (up_id <$> get_list (uploads design_doc))
   ∧ personal_projects member_asha design_doc ≠ []
   ∧ asha_upload ∈ get_list (uploads design_doc)
   ∧ usr_name member_asha = up_uploaded_by asha_upload)
  ∧ edit_remove_offered PersonalView member_asha design_doc asha_upload = true.
Proof.
  assert (Hids : NoDup (up_id <$> get_list (uploads design_doc))) by compute_done.
  assert (Hrow : personal_projects member_asha design_doc ≠ []
                 ∧ asha_upload ∈ get_list (uploads design_doc)
                 ∧ usr_name member_asha = up_uploaded_by asha_upload).
  { split; [by vm_compute |]. split; [| reflexivity]. vm_compute. constructor. }
  split; [by split |].
  exact (proj2 (proj1 (can_edit_per_view member_asha design_doc asha_upload Hids))
           Hrow).
Defined.

(** ** C3 and C4: [replace_upload] *)

Section Replace.
Variables (uuid_hex now : string) (upload_id : Z)
          (file_obj : FileObj) (uploaded_by : string).

Lemma replace_at_spec (d : Document) (i : nat) (u : Upload) (w : World) :
  ∃ w', replace_at uuid_hex now d i u file_obj uploaded_by w
        = (Some (replaced uuid_hex now file_obj uploaded_by u), w')
        ∧ data_file w'
          = Some (set_uploads d (<[i := replaced uuid_hex now file_obj uploaded_by u]> (get_list (uploads d)))).
Proof.
  unfold replace_at, mbind, IO_bind, unlink_if_exists.
  destruct (upload_dir w !! up_filename u); simpl; eexists; split; reflexivity.
Qed.

(** No record with the id: the loop runs to its end and touches nothing. *)
Lemma replace_loop_absent (d : Document) (rest : list Upload) (i : nat) (w : World) :
  upload_id ∉ (up_id <$> rest) →
  replace_loop uuid_hex now d upload_id file_obj uploaded_by i rest w = (None, w).
Proof.
  revert i. induction rest as [|u rest IH]; intros i Hnot; simpl; [done |].
  rewrite fmap_cons, not_elem_of_cons in Hnot. destruct Hnot as [Hne Hrest].
  rewrite bool_decide_eq_false_2 by congruence. by apply IH.
Qed.

(** Some record with the id: the loop stops at the first one. *)
Lemma replace_loop_first (d : Document) (rest : list Upload) (i : nat) (w : World) :
  upload_id ∈ (up_id <$> rest) →
  ∃ (j : nat) (u : Upload),
    rest !! j = Some u ∧ up_id u = upload_id
    ∧ replace_loop uuid_hex now d upload_id file_obj uploaded_by i rest w
      = replace_at uuid_hex now d (i + j) u file_obj uploaded_by w.
Proof.
  revert i. induction rest as [|u rest IH]; intros i Hin; simpl.
  - by apply elem_of_nil in Hin.
  - case_bool_decide as Hid.
    + exists 0%nat, u. by rewrite Nat.add_0_r.
    + rewrite fmap_cons, elem_of_cons in Hin. destruct Hin as [Heq | Hin]; [congruence |].
      destruct (IH (S i) Hin) as (j & u' & Hj & Hu' & Hrun).
      exists (S j), u'. rewrite Hrun. by replace (i + S j)%nat with (S i + j)%nat by lia.
Qed.

(** C3: on a document holding a record with the id, [replace_upload]
    returns the updated record; it keeps the id and the final flag (and
    the project and team) of the old one, carries the new timestamp,
    storage name, original name and uploader, takes the old record's
    place in the stored list, and every other position of the list is as
    before. *)
Theorem replace_upload_keeps_id_and_final (w : World) :
  upload_id ∈ (up_id <$> stored_uploads w) →
  ∃ (i : nat) (u u' : Upload) (w' : World),
    replace_upload uuid_hex now upload_id file_obj uploaded_by w = (Some u', w')
    ∧ stored_uploads w !! i = Some u
    ∧ up_id u = upload_id
    ∧ (up_id u' = up_id u ∧ up_final u' = up_final u)
    ∧ (up_project_id u' = up_project_id u
       ∧ up_project_name u' = up_project_name u ∧ up_team u' = up_team u)
    ∧ (up_ts u' = now
       ∧ up_filename u' = storage_name uuid_hex file_obj
       ∧ up_original_name u' = fo_name file_obj
       ∧ up_uploaded_by u' = uploaded_by)
    ∧ stored_uploads w' = <[i := u']> (stored_uploads w)
    ∧ (∀ j : nat, j ≠ i → stored_uploads w' !! j = stored_uploads w !! j).
Proof.
  intros Hin. unfold stored_uploads in *.
  unfold replace_upload, mbind, IO_bind.
  unfold stored in *. destruct (load_data w) as [d w1]; simpl in *.
  destruct (replace_loop_first d (get_list (uploads d)) 0 w1 Hin)
    as (i & u & Hi & Hu & ->).
  destruct (replace_at_spec d i u w1) as (w' & Hrun & Hfile).
  exists i, u, (replaced uuid_hex now file_obj uploaded_by u), w'. simpl. rewrite Hrun.
  assert (Hnew : get_list (uploads (load_data w').1)
                 = <[i := replaced uuid_hex now file_obj uploaded_by u]> (get_list (uploads d))).
  { fold (stored w'). by rewrite (stored_data_file _ _ Hfile). }
  repeat split; try done.
  intros j Hj. rewrite Hnew. by apply list_lookup_insert_ne.
Qed.

(** C4: without a record with the id in the stored document,
    [replace_upload] returns [None] and the world is as it was: the data
    file, the upload directory, and no write in the trace. *)
Theorem replace_upload_absent_id (w : World) (d : Document) :
  data_file w = Some d →
  upload_id ∉ (up_id <$> get_list (uploads d)) →
  replace_upload uuid_hex now upload_id file_obj uploaded_by w = (None, w).
Proof.
  intros Hfile Hnot. unfold replace_upload, mbind, IO_bind, load_data.
  rewrite Hfile. by apply replace_loop_absent.
Qed.

(** Without a data file, [load_data] first writes the default document;
    the result is [None] all the same. *)
Lemma replace_upload_no_data_file (w : World) :
  data_file w = None →
  replace_upload uuid_hex now upload_id file_obj uploaded_by w
  = (None, {| data_file := Some init_doc; upload_dir := upload_dir w;
              trace := trace w ++ [EvSave init_doc] |}).
Proof.
  intros Hfile. unfold replace_upload, mbind, IO_bind, load_data.
  rewrite Hfile. reflexivity.
Qed.
End Replace.

Lemma replace_upload_keeps_id_and_final_witness :
  2 ∈ (up_id <$> stored_uploads two_uploads_world)
  ∧ ∃ (u' : Upload) (w' : World),
      replace_upload "d4" "2024-01-02T08:00:00" 2 replacement_file "ravi"
        two_uploads_world = (Some u', w')
      ∧ up_id u' = 2 ∧ up_uploaded_by u' = "ravi".
Proof.
  assert (Hin : 2 ∈ (up_id <$> stored_uploads two_uploads_world)) by compute_done.
  split; [exact Hin |].
  destruct (replace_upload_keeps_id_and_final "d4" "2024-01-02T08:00:00" 2
              replacement_file "ravi" two_uploads_world Hin)
    as (i & u & u' & w' & Hrun & _ & Hid & [Hid' _] & _ & (_ & _ & _ & Hby) & _).
  exists u', w'. split; [exact Hrun |]. split; [congruence | exact Hby].
Defined.

Lemma replace_upload_absent_id_witness :
  (data_file two_uploads_world = Some (stored two_uploads_world)
   ∧ 9 ∉ (up_id <$> get_list (uploads (stored two_uploads_world))))
  ∧ replace_upload "d4" "2024-01-02T08:00:00" 9 replacement_file "ravi"
      two_uploads_world = (None, two_uploads_world).
Proof.
  assert (Hfile : data_file two_uploads_world = Some (stored two_uploads_world))
    by reflexivity.
  assert (Hnot : 9 ∉ (up_id <$> get_list (uploads (stored two_uploads_world))))
    by compute_done.
  split; [by split |].
  exact (replace_upload_absent_id "d4" "2024-01-02T08:00:00" 9 replacement_file
           "ravi" two_uploads_world _ Hfile Hnot).
Defined.

(** ** C5 and C9: removal of an upload *)

(** [remove_upload] only unlinks files before it saves. *)
Lemma remove_loop_trace (upload_id : Z) (rest acc : list Upload) (w : World) :
  ∃ ks : list string,
    trace (remove_loop upload_id rest acc w).2 = trace w ++ (EvUnlink <$> ks).
Proof.
  revert acc w. induction rest as [|u rest IH]; intros acc w; simpl.
  - exists []. by rewrite app_nil_r.
  - case_bool_decide as Hid; [| apply IH].
    unfold mbind, IO_bind, unlink_if_exists.
    destruct (upload_dir w !! up_filename u); [| apply IH].
    match goal with |- context [remove_loop _ _ _ ?w1] =>
      destruct (IH acc w1) as [ks Hks] end.
    exists (up_filename u :: ks). rewrite Hks. simpl. by rewrite <- app_assoc.
Qed.

(** [remove_upload] drops every record with the id, whether or not the
    files they name exist, and writes the data file once, after the
    unlinks. *)
Lemma remove_upload_removes_record (upload_id : Z) (w : World) :
  (upload_id ∉ (up_id <$> stored_uploads (remove_upload upload_id w).2))
  ∧ ∃ ks : list string,
      trace (remove_upload upload_id w).2
      = trace (load_data w).2 ++ (EvUnlink <$> ks)
        ++ [EvSave (set_uploads (stored w)
                      (filter (λ u, up_id u ≠ upload_id) (stored_uploads w)))].
Proof.
  split.
  - rewrite remove_upload_stored. intros Hin.
    apply list_elem_of_fmap in Hin as (u & Hid & Hu).
    apply list_elem_of_filter in Hu as [Hne _]. by apply Hne.
  - unfold remove_upload, stored_uploads, stored, mbind, IO_bind.
    destruct (load_data w) as [d w1]. simpl.
    pose proof (remove_loop_spec upload_id (get_list (uploads d)) [] w1) as [Hl _].
    destruct (remove_loop_trace upload_id (get_list (uploads d)) [] w1) as [ks Hks].
    destruct (remove_loop upload_id (get_list (uploads d)) [] w1) as [l w2].
    simpl in *. subst l. exists ks. rewrite Hks. by rewrite <- app_assoc.
Qed.

(** The Remove button of the Final BOM tab gives up when the file is
    missing: nothing is written, the record stays. *)
Lemma final_bom_remove_missing_blob (d : Document) (u : Upload) (w : World) :
  upload_dir w !! up_filename u = None →
  final_bom_remove d u w = (false, w).
Proof.
  intros Hmiss. unfold final_bom_remove, mbind, IO_bind, os_remove.
  by rewrite Hmiss.
Qed.

(** C5: with the file of a stored final upload missing, the Remove button
    of the Final BOM tab reports an error and leaves the record stored,
    where [remove_upload] removes it. *)
Theorem final_bom_tab_remove_keeps_dangling_record :
  final_bom_tab_remove lead_ravi final_upload dangling_world
  = (Some false, dangling_world)
  ∧ stored_uploads (final_bom_tab_remove lead_ravi final_upload dangling_world).2
    = [final_upload]
  ∧ stored_uploads (remove_upload 3 dangling_world).2 = [].
Proof. repeat split. Qed.

(** C9: removing an id that no stored upload carries leaves the stored
    uploads as they are, and a second removal of the same id changes
    nothing more. *)
Theorem remove_upload_idempotent (upload_id : Z) (w : World) :
  (upload_id ∉ (up_id <$> stored_uploads w) →
   stored_uploads (remove_upload upload_id w).2 = stored_uploads w)
  ∧ stored_uploads (remove_upload upload_id (remove_upload upload_id w).2).2
    = stored_uploads (remove_upload upload_id w).2.
Proof.
  assert (Hkeep : ∀ l : list Upload,
             upload_id ∉ (up_id <$> l) → filter (λ u, up_id u ≠ upload_id) l = l).
  { induction l as [|u l IH]; [done |].
    rewrite fmap_cons, not_elem_of_cons. intros [Hne Hl].
    rewrite filter_cons_True by congruence. by rewrite IH. }
  split.
  - intros Hnot. rewrite remove_upload_stored. by apply Hkeep.
  - rewrite (remove_upload_stored upload_id (remove_upload upload_id w).2).
    apply Hkeep, remove_upload_removes_record.
Qed.

Lemma remove_upload_idempotent_witness :
  (5 ∉ (up_id <$> stored_uploads two_uploads_world))
  ∧ stored_uploads (remove_upload 5 two_uploads_world).2
    = stored_uploads two_uploads_world.
Proof.
  assert (Hnot : 5 ∉ (up_id <$> stored_uploads two_uploads_world)).
  { vm_compute. intros Hin. apply list_elem_of_In in Hin. simpl in Hin.
    destruct Hin as [? | [? | []]]; discriminate. }
  split; [exact Hnot |].
  exact (proj1 (remove_upload_idempotent 5 two_uploads_world) Hnot).
Defined.

(** ** C6: who may upload a Final BOM *)

(** C6: for the project selected in the Final BOM tab, the Upload Final
    BOM button stores an upload exactly when the role of the actor is
    [project_lead]; [project_lead], [admin] and [superadmin] all reach the
    tab, but for [admin] and [superadmin] nothing is uploaded and the
    world is as it was. *)
Theorem final_upload_project_lead_only (user : User) :
  (∀ (uuid_hex now : string) (proj : Project) (display : string)
     (new_final : FileObj) (w : World),
      (∃ (entry : Upload) (w' : World),
          final_bom_upload uuid_hex now user proj display new_final w
          = (Some entry, w')
          ∧ entry ∈ stored_uploads w' ∧ up_final entry = true)
      ↔ usr_role user = "project_lead")
  ∧ (usr_role user = "project_lead" → "Final BOM" ∈ tabs user)
  ∧ (usr_role user ∈ ["admin"; "superadmin"] →
     "Final BOM" ∈ tabs user
     ∧ ∀ (uuid_hex now : string) (proj : Project) (display : string)
         (new_final : FileObj) (w : World),
         final_bom_upload uuid_hex now user proj display new_final w
         = (None, w)).
Proof.
  assert (Hother : usr_role user ≠ "project_lead" →
            ∀ uuid_hex now proj display new_final w,
              final_bom_upload uuid_hex now user proj display new_final w
              = (None, w)).
  { intros Hrole **. unfold final_bom_upload. by rewrite bool_decide_eq_false_2. }
  split; [| split].
  - intros uuid_hex now proj display new_final w. split.
    + intros (entry & w' & Hrun & _).
      destruct (decide (usr_role user = "project_lead")) as [Hrole | Hrole];
        [done |].
      by rewrite (Hother Hrole) in Hrun.
    + intros Hrole. unfold final_bom_upload.
      rewrite bool_decide_eq_true_2 by done. unfold mbind, IO_bind.
      destruct (add_upload_spec uuid_hex now (pr_id proj) display
                  (default "" (usr_team user)) (usr_name user) new_final true w)
        as (w' & -> & Hfile).
      eexists _, w'. split; [reflexivity |]. split; [| done].
      unfold stored_uploads. rewrite (stored_data_file _ _ Hfile). simpl.
      apply elem_of_app. right. by left.
  - intros Hrole. unfold tabs. rewrite Hrole. compute_done.
  - intros Hrole. split.
    + unfold tabs.
      apply elem_of_cons in Hrole as [-> | Hrole];
        [| apply list_elem_of_singleton in Hrole as ->]; compute_done.
    + apply Hother. intros Heq. rewrite Heq in Hrole. revert Hrole. compute_done.
Qed.

Lemma final_upload_project_lead_only_witness :
  usr_role admin_mira ∈ ["admin"; "superadmin"]
  ∧ "Final BOM" ∈ tabs admin_mira
  ∧ final_bom_upload "e5" "2024-02-02T09:00:00" admin_mira
      {| pr_id := 1; pr_name := "Launcher"; pr_teams := ["Design"] |}
      "Project 1" {| fo_name := "final.csv"; fo_buffer := [] |} empty_world
    = (None, empty_world).
Proof.
  assert (Hrole : usr_role admin_mira ∈ ["admin"; "superadmin"]) by compute_done.
  split; [exact Hrole |].
  destruct (proj2 (proj2 (final_upload_project_lead_only admin_mira)) Hrole)
    as [Htab Hnone].
  split; [exact Htab | apply Hnone].
Defined.

(** ** C7: login *)

(** [find_user_in] returns the first record passing the test. *)
Lemma find_user_in_Some (us : list User) (name role : string) (u : User) :
  find_user_in us name role = Some u ↔
  ∃ pre post : list User,
    us = pre ++ u :: post
    ∧ Forall (λ v, name_role_match name role v = false) pre
    ∧ name_role_match name role u = true.
Proof.
  induction us as [|v us IH]; simpl.
  - split; [discriminate |]. intros (pre & post & Hus & _).
    by destruct pre.
  - destruct (name_role_match name role v) eqn:Hv.
    + split.
      * intros [= ->]. exists [], us. by repeat split.
      * intros (pre & post & Hus & Hpre & Hu).
        destruct pre as [|v' pre]; simpl in Hus; injection Hus as -> ->; [done |].
        apply Forall_cons in Hpre as [Hv' _]. congruence.
    + rewrite IH. split.
      * intros (pre & post & -> & Hpre & Hu).
        exists (v :: pre), post. repeat split; [| done]. by constructor.
      * intros (pre & post & Hus & Hpre & Hu).
        destruct pre as [|v' pre]; simpl in Hus; injection Hus as -> ->; [congruence |].
        apply Forall_cons in Hpre as [_ Hpre]. by exists pre, post.
Qed.

Lemma name_role_match_true (name role : string) (u : User) :
  name_role_match name role u = true ↔
  lower (usr_name u) = lower name ∧ usr_role u = role.
Proof.
  unfold name_role_match. rewrite andb_true_iff, !bool_decide_eq_true. tauto.
Qed.

Example login_second_twin :
  (login "member" "asha" "2222" twin_users_world).1 = InvalidPin.
Proof. vm_compute. reflexivity. Qed.

(** C7, as worded, fails: of two stored users with the same name and
    role only the first can log in, the PIN of the second is refused. *)
Lemma login_checks_first_match_only : ¬ login_iff_some_user_matches.
Proof.
  intros H.
  destruct (H twin_users_world "member" "asha" "2222") as [_ Hlogin].
  destruct Hlogin as [u Hu].
  - exists (asha_with_pin 8 "2222"). split; [| by vm_compute].
    vm_compute. apply list_elem_of_In. right. left. reflexivity.
  - rewrite login_second_twin in Hu. discriminate.
Qed.

(** A successful login returns the first record passing the test. *)
Lemma login_logged_in_first (w : World) (role name pin : string) (u : User) :
  (login role name pin w).1 = LoggedIn u →
  ∃ pre post : list User,
    get_list (users (stored w)) = pre ++ u :: post
    ∧ Forall (λ v, name_role_match (strip name) role v = false) pre
    ∧ lower (usr_name u) = lower (strip name)
    ∧ usr_role u = role
    ∧ usr_pin u = Some (strip pin).
Proof.
  unfold login, find_user, mbind, IO_bind, stored.
  destruct (load_data w) as [d w1]. simpl.
  destruct (users d) as [us|]; simpl; [| discriminate].
  destruct (find_user_in us (strip name) role) as [v|] eqn:Hfind; simpl;
    [| discriminate].
  case_bool_decide as Hpin; simpl; [| discriminate].
  intros [= ->].
  apply find_user_in_Some in Hfind as (pre & post & Hus & Hpre & Hu).
  apply name_role_match_true in Hu as [Hn Hr].
  exists pre, post. by repeat split.
Qed.

(** Conversely, the first record passing the test logs in with its PIN. *)
Lemma login_first_logs_in (w : World) (role name pin : string) (u : User)
    (pre post : list User) :
  get_list (users (stored w)) = pre ++ u :: post →
  Forall (λ v, name_role_match (strip name) role v = false) pre →
  name_role_match (strip name) role u = true →
  usr_pin u = Some (strip pin) →
  (login role name pin w).1 = LoggedIn u.
Proof.
  intros Hus Hpre Hu Hpin.
  unfold login, find_user, mbind, IO_bind, stored in *.
  destruct (load_data w) as [d w1]. simpl in *.
  destruct (users d) as [us|]; simpl in *; [| by destruct pre].
  assert (Hfind : find_user_in us (strip name) role = Some u).
  { apply find_user_in_Some. by exists pre, post. }
  rewrite Hfind. simpl. by rewrite bool_decide_eq_true_2.
Qed.

(** C7 (amended): login succeeds as [u] exactly when [u] is the first
    stored user whose name equals the supplied name (stripped, compared
    case-insensitively) and whose role equals the chosen role, and the
    stored PIN of [u] equals the supplied PIN (stripped) as a string. *)
Theorem login_succeeds_iff_first_match (w : World) (role name pin : string) (u : User) :
  (login role name pin w).1 = LoggedIn u ↔
  ∃ pre post : list User,
    get_list (users (stored w)) = pre ++ u :: post
    ∧ Forall (λ v, ¬ (lower (usr_name v) = lower (strip name) ∧ usr_role v = role)) pre
    ∧ lower (usr_name u) = lower (strip name)
    ∧ usr_role u = role
    ∧ usr_pin u = Some (strip pin).
Proof.
  assert (Hpre : ∀ pre : list User,
             Forall (λ v, name_role_match (strip name) role v = false) pre ↔
             Forall (λ v, ¬ (lower (usr_name v) = lower (strip name) ∧ usr_role v = role)) pre).
  { intros pre. apply Forall_iff. intros v.
    rewrite <- name_role_match_true. by destruct (name_role_match _ _ v). }
  split.
  - intros (pre & post & Hus & Hfalse & Hrest)%login_logged_in_first.
    exists pre, post. split; [exact Hus |]. split; [by apply Hpre | exact Hrest].
  - intros (pre & post & Hus & Hnot & Hn & Hr & Hpin).
    apply (login_first_logs_in w role name pin u pre post Hus);
      [by apply Hpre | by apply name_role_match_true | exact Hpin].
Qed.

Lemma login_succeeds_iff_first_match_witness :
  (∃ pre post : list User,
      get_list (users (stored twin_users_world))
      = pre ++ asha_with_pin 7 "1111" :: post
      ∧ Forall (λ v, ¬ (lower (usr_name v) = lower (strip " asha")
                        ∧ usr_role v = "member")) pre
      ∧ lower (usr_name (asha_with_pin 7 "1111")) = lower (strip " asha")
      ∧ usr_role (asha_with_pin 7 "1111") = "member"
      ∧ usr_pin (asha_with_pin 7 "1111") = Some (strip "1111 "))
  ∧ (login "member" " asha" "1111 " twin_users_world).1
    = LoggedIn (asha_with_pin 7 "1111").
Proof.
  assert (Hfirst : ∃ pre post : list User,
             get_list (users (stored twin_users_world))
             = pre ++ asha_with_pin 7 "1111" :: post
             ∧ Forall (λ v, ¬ (lower (usr_name v) = lower (strip " asha")
                               ∧ usr_role v = "member")) pre
             ∧ lower (usr_name (asha_with_pin 7 "1111")) = lower (strip " asha")
             ∧ usr_role (asha_with_pin 7 "1111") = "member"
             ∧ usr_pin (asha_with_pin 7 "1111") = Some (strip "1111 ")).
  { exists [], [asha_with_pin 8 "2222"]. repeat split. constructor. }
  split; [exact Hfirst |].
  exact (proj2 (login_succeeds_iff_first_match twin_users_world "member" " asha"
                  "1111 " (asha_with_pin 7 "1111")) Hfirst).
Defined.

(** When at most one stored user passes the name and role test, the
    wording of the claim and the behaviour of the handler agree. *)
Lemma login_iff_some_user_matches_unique (w : World) (role name pin : string) :
  (∀ u v : User,
      u ∈ get_list (users (stored w)) → v ∈ get_list (users (stored w)) →
      name_role_match (strip name) role u = true →
      name_role_match (strip name) role v = true → u = v) →
  (∃ u : User, (login role name pin w).1 = LoggedIn u) ↔
  (∃ u : User,
      u ∈ get_list (users (stored w))
      ∧ lower (usr_name u) = lower (strip name)
      ∧ usr_role u = role
      ∧ usr_pin u = Some (strip pin)).
Proof.
  intros Huniq. split.
  - intros [u Hu]. exists u.
    pose proof (login_logged_in_first w role name pin u Hu)
      as (pre & post & Hus & _ & Hn & Hr & Hp).
    repeat split; try done. rewrite Hus. apply elem_of_app. right. by left.
  - intros (u & Hin & Hn & Hr & Hp).
    unfold login, find_user, mbind, IO_bind, stored in *.
    destruct (load_data w) as [d w1]. simpl in *.
    destruct (users d) as [us|]; simpl in *; [| by apply elem_of_nil in Hin].
    assert (Hu : name_role_match (strip name) role u = true)
      by by apply name_role_match_true.
    destruct (find_user_in us (strip name) role) as [v|] eqn:Hfind; simpl.
    + pose proof Hfind as (pre & post & Hus & _ & Hv)%find_user_in_Some.
      assert (u = v) as <-.
      { apply Huniq; try done. rewrite Hus. apply elem_of_app. right. by left. }
      exists u. by rewrite bool_decide_eq_true_2.
    + exfalso. clear Huniq. induction us as [|x us IH]; [by apply elem_of_nil in Hin |].
      simpl in Hfind. destruct (name_role_match (strip name) role x) eqn:Hx; [done |].
      apply elem_of_cons in Hin as [-> | Hin]; [congruence | by apply IH].
Qed.

(** ** C8: listing messages *)

(** C8, as worded, fails on an empty project name: the test
    [if project:] skips the filter, so messages of every project come
    back. *)
Lemma empty_project_is_no_filter : ¬ list_keeps_exactly_both_matches.
Proof.
  intros H. specialize (H one_message_world "" "Tooling").
  vm_compute in H. discriminate.
Qed.

(** C8 (amended): for a non-empty project name and a non-empty team name,
    [get_messages] returns exactly the stored messages carrying both, in
    stored order; and a stored message of that project and team with no
    recipient is in the list [relevant] the Messenger tab builds for any
    user. *)
Theorem get_messages_filters_both (w : World) (project team : string) :
  project ≠ "" → team ≠ "" →
  (get_messages (Some project) (Some team) w).1
  = filter (λ m, msg_project m = Some project ∧ msg_team m = Some team)
      (get_list (messages (stored w)))
  ∧ (get_messages (Some project) (Some team) w).1
    `sublist_of` get_list (messages (stored w))
  ∧ ∀ (user : User) (m : Message),
      m ∈ get_list (messages (stored w)) →
      msg_to m = None → msg_project m = Some project → msg_team m = Some team →
      m ∈ (relevant_messages user project (Some team) w).1.
Proof.
  intros Hp Ht.
  assert (Hlist : (get_messages (Some project) (Some team) w).1
                  = filter (λ m, msg_project m = Some project ∧ msg_team m = Some team)
                      (get_list (messages (stored w)))).
  { unfold get_messages, mbind, IO_bind, stored, truthy.
    destruct (load_data w) as [d w1]. simpl.
    rewrite !bool_decide_eq_false_2 by done. simpl.
    rewrite list_filter_filter. apply list_filter_iff. tauto. }
  split; [exact Hlist |]. split.
  - rewrite Hlist. apply sublist_filter.
  - intros user m Hin Hto Hproj Hteam.
    unfold relevant_messages, mbind, IO_bind.
    destruct (get_messages (Some project) (Some team) w) as [msgs w1].
    simpl in *. subst msgs.
    apply list_elem_of_filter. split.
    + rewrite Hto. apply elem_of_cons. by left.
    + apply list_elem_of_filter. by repeat split.
Qed.

Lemma get_messages_filters_both_witness :
  ("Project 2" ≠ "" ∧ "Tooling" ≠ "")
  ∧ (get_messages (Some "Project 2") (Some "Tooling") one_message_world).1
    = [tooling_note].
Proof.
  assert (Hp : "Project 2" ≠ "") by discriminate.
  assert (Ht : "Tooling" ≠ "") by discriminate.
  split; [by split |].
  rewrite (proj1 (get_messages_filters_both one_message_world _ _ Hp Ht)).
  vm_compute. reflexivity.
Defined.

(** ** C10: Reset PIN *)

(** C10: a click on Reset PIN by an admin or superadmin saves the document
    with the PIN of the user carrying the targeted id set to ["0000"],
    every other field of that user, every user with another id, and every
    other collection unchanged. *)
Theorem reset_pin_sets_0000 (actor : User) (target_id : Z) (us : list User) (w : World) :
  usr_role actor ∈ ["admin"; "superadmin"] →
  users (stored w) = Some us →
  target_id ∈ (usr_id <$> us) →
  ∃ (w' : World) (us' : list User),
    admin_tab_reset_pin actor target_id w = (true, w')
    ∧ users (stored w') = Some us'
    ∧ length us' = length us
    ∧ (∃ (i : nat) (x' : User),
          us' !! i = Some x' ∧ usr_id x' = target_id ∧ usr_pin x' = Some "0000")
    ∧ (∀ (i : nat) (x : User),
          us !! i = Some x → usr_id x = target_id →
          ∃ x' : User,
            us' !! i = Some x'
            ∧ usr_pin x' = Some "0000"
            ∧ usr_id x' = usr_id x ∧ usr_name x' = usr_name x
            ∧ usr_role x' = usr_role x ∧ usr_team x' = usr_team x
            ∧ usr_project x' = usr_project x ∧ usr_roles x' = usr_roles x)
    ∧ (∀ (i : nat) (x : User),
          us !! i = Some x → usr_id x ≠ target_id → us' !! i = Some x)
    ∧ (projects (stored w') = projects (stored w)
       ∧ uploads (stored w') = uploads (stored w)
       ∧ messages (stored w') = messages (stored w)
       ∧ dashboards (stored w') = dashboards (stored w)).
Proof.
  intros Hrole Hus Hin.
  unfold admin_tab_reset_pin, admin_reset_pin, mbind, IO_bind, stored in *.
  destruct (load_data w) as [d w1]. simpl in *.
  rewrite bool_decide_eq_false_2 by (intros Hnot; by apply Hnot).
  eexists _, (reset_pins_in target_id us). simpl.
  split; [reflexivity |]. unfold load_data. simpl. rewrite Hus. simpl.
  assert (Hat : ∀ (i : nat) (x : User), us !! i = Some x →
            reset_pins_in target_id us !! i
            = Some (if bool_decide (usr_id x = target_id) then set_pin_0000 x else x)).
  { intros i x Hi. unfold reset_pins_in. by rewrite list_lookup_fmap, Hi. }
  split; [reflexivity |]. split; [apply length_fmap |]. split; [| split; [| split]].
  - apply list_elem_of_fmap in Hin as (x & -> & Hx).
    apply list_elem_of_lookup in Hx as [i Hi].
    exists i, (set_pin_0000 x). rewrite (Hat i x Hi).
    by rewrite bool_decide_eq_true_2.
  - intros i x Hi Hid. exists (set_pin_0000 x). rewrite (Hat i x Hi).
    rewrite bool_decide_eq_true_2 by done. by repeat split.
  - intros i x Hi Hid. rewrite (Hat i x Hi).
    by rewrite bool_decide_eq_false_2.
  - by repeat split.
Qed.

Lemma reset_pin_sets_0000_witness :
  (usr_role admin_mira ∈ ["admin"; "superadmin"]
   ∧ users (stored twin_users_world)
     = Some [asha_with_pin 7 "1111"; asha_with_pin 8 "2222"]
   ∧ 8 ∈ (usr_id <$> [asha_with_pin 7 "1111"; asha_with_pin 8 "2222"]))
  ∧ ∃ w' : World,
      admin_tab_reset_pin admin_mira 8 twin_users_world = (true, w')
      ∧ users (stored w') = Some [asha_with_pin 7 "1111"; asha_with_pin 8 "0000"].
Proof.
  assert (Hrole : usr_role admin_mira ∈ ["admin"; "superadmin"]).
  { apply list_elem_of_In. simpl. tauto. }
  assert (Hus : users (stored twin_users_world)
                = Some [asha_with_pin 7 "1111"; asha_with_pin 8 "2222"])
    by reflexivity.
  assert (Hin : 8 ∈ (usr_id <$> [asha_with_pin 7 "1111"; asha_with_pin 8 "2222"])).
  { apply list_elem_of_In. simpl. tauto. }
  split; [by repeat split |].
  destruct (reset_pin_sets_0000 admin_mira 8 _ twin_users_world Hrole Hus Hin)
    as (w' & us' & Hrun & _).
  exists w'. split; [exact Hrun |].
  vm_compute in Hrun. injection Hrun as <-. reflexivity.
Defined.

(** ** The upload registry: what each operation stores *)

Lemma create_world (a : CreateArgs) (w : World) :
  data_file (create a w).2
  = Some (set_uploads (stored w) (stored_uploads w ++ [(create a w).1]))
  ∧ upload_dir (create a w).2
    = <[storage_name (ca_uuid_hex a) (ca_file_obj a) := fo_buffer (ca_file_obj a)]>
        (upload_dir w).
Proof.
  unfold create, add_upload, stored_uploads, stored, load_data, mbind, IO_bind.
  destruct (data_file w); simpl; split; reflexivity.
Qed.

Lemma remove_upload_data_file (upload_id : Z) (w : World) :
  data_file (remove_upload upload_id w).2
  = Some (set_uploads (stored w)
            (filter (λ u, up_id u ≠ upload_id) (stored_uploads w))).
Proof.
  unfold remove_upload, stored_uploads, stored, mbind, IO_bind.
  destruct (load_data w) as [d w1]. simpl.
  pose proof (remove_loop_spec upload_id (get_list (uploads d)) [] w1) as [Hl _].
  destruct (remove_loop upload_id (get_list (uploads d)) [] w1) as [l w2].
  simpl in *. by subst l.
Qed.

Lemma load_data_upload_dir (w : World) : upload_dir (load_data w).2 = upload_dir w.
Proof. unfold load_data. by destruct (data_file w). Qed.

Lemma replace_at_world uuid_hex now (d : Document) (i : nat) (u : Upload)
    file_obj uploaded_by (w : World) :
  upload_dir (replace_at uuid_hex now d i u file_obj uploaded_by w).2
  = <[storage_name uuid_hex file_obj := fo_buffer file_obj]>
      (delete (up_filename u) (upload_dir w)).
Proof.
  unfold replace_at, mbind, IO_bind, unlink_if_exists.
  destruct (upload_dir w !! up_filename u) eqn:Hold; simpl; [done |].
  by rewrite (delete_id _ _ Hold).
Qed.

(** [replace_upload] on a stored id: the record it rewrites, the document
    and the directory it leaves. *)
Lemma replace_upload_present uuid_hex now upload_id file_obj uploaded_by (w : World) :
  upload_id ∈ (up_id <$> stored_uploads w) →
  ∃ (i : nat) (u : Upload),
    stored_uploads w !! i = Some u
    ∧ up_id u = upload_id
    ∧ data_file (replace_upload uuid_hex now upload_id file_obj uploaded_by w).2
      = Some (set_uploads (stored w)
                (<[i := replaced uuid_hex now file_obj uploaded_by u]>
                   (stored_uploads w)))
    ∧ upload_dir (replace_upload uuid_hex now upload_id file_obj uploaded_by w).2
      = <[storage_name uuid_hex file_obj := fo_buffer file_obj]>
          (delete (up_filename u) (upload_dir w)).
Proof.
  intros Hin. pose proof (load_data_upload_dir w) as Hdir.
  unfold replace_upload, stored_uploads, stored, mbind, IO_bind in *.
  destruct (load_data w) as [d w1]. simpl in *.
  destruct (replace_loop_first uuid_hex now upload_id file_obj uploaded_by d
              (get_list (uploads d)) 0 w1 Hin) as (i & u & Hi & Hu & ->).
  simpl. exists i, u. split; [done |]. split; [done |].
  rewrite replace_at_world, Hdir.
  destruct (replace_at_spec uuid_hex now file_obj uploaded_by d i u w1)
    as (w' & -> & Hfile).
  by split.
Qed.

(** [replace_upload] on an id that is not stored does no more than the
    [load_data] it starts with. *)
Lemma replace_upload_missing uuid_hex now upload_id file_obj uploaded_by (w : World) :
  upload_id ∉ (up_id <$> stored_uploads w) →
  replace_upload uuid_hex now upload_id file_obj uploaded_by w
  = (None, (load_data w).2).
Proof.
  intros Hnot. unfold replace_upload, stored_uploads, stored, mbind, IO_bind in *.
  destruct (load_data w) as [d w1]. simpl in *.
  by apply replace_loop_absent.
Qed.

(** Whatever the id, [replace_upload] leaves the list of stored ids as it
    is. *)
Lemma replace_upload_ids uuid_hex now upload_id file_obj uploaded_by (w : World) :
  up_id <$> stored_uploads
              (replace_upload uuid_hex now upload_id file_obj uploaded_by w).2
  = up_id <$> stored_uploads w.
Proof.
  destruct (decide (upload_id ∈ (up_id <$> stored_uploads w))) as [Hin | Hnot].
  - destruct (replace_upload_present uuid_hex now upload_id file_obj uploaded_by
                w Hin) as (i & u & Hi & Hu & Hfile & _).
    unfold stored_uploads at 1. rewrite (stored_data_file _ _ Hfile). simpl.
    rewrite list_fmap_insert. simpl.
    apply list_insert_id. by rewrite list_lookup_fmap, Hi.
  - rewrite (replace_upload_missing _ _ _ _ _ _ Hnot). simpl.
    unfold stored_uploads. by rewrite load_data_idem.
Qed.

Lemma NoDup_fmap_elem_inj {A B} (f : A → B) (l : list A) (x y : A) :
  NoDup (f <$> l) → x ∈ l → y ∈ l → f x = f y → x = y.
Proof.
  induction l as [|z l IH]; [by intros _ ?%elem_of_nil |].
  rewrite fmap_cons, NoDup_cons. intros [Hz Hl] Hx Hy Hf.
  apply elem_of_cons in Hx as [-> | Hx]; apply elem_of_cons in Hy as [-> | Hy].
  - done.
  - exfalso. apply Hz. rewrite Hf. by apply list_elem_of_fmap_2.
  - exfalso. apply Hz. rewrite <- Hf. by apply list_elem_of_fmap_2.
  - by apply IH.
Qed.

Lemma NoDup_insert_fresh {A} (l : list A) (i : nat) (x : A) :
  NoDup l → x ∉ l → NoDup (<[i := x]> l).
Proof.
  revert i. induction l as [|y l IH]; intros i Hl Hx; [done |].
  apply NoDup_cons in Hl as [Hy Hl]. apply not_elem_of_cons in Hx as [Hxy Hx].
  destruct i as [|i]; simpl.
  - apply NoDup_cons. by split.
  - apply NoDup_cons. split; [| by apply IH].
    intros Hin. apply list_elem_of_lookup in Hin as [j Hj].
    apply list_lookup_insert_Some in Hj as [(_ & Heq & _) | [_ Hj]]; [congruence |].
    apply Hy. by eapply list_elem_of_lookup_2.
Qed.

Lemma unlink_lookup (fname k : string) (w : World) :
  upload_dir (unlink_if_exists fname w).2 !! k
  = if decide (k = fname) then None else upload_dir w !! k.
Proof.
  unfold unlink_if_exists.
  destruct (upload_dir w !! fname) eqn:Hold; simpl.
  - rewrite lookup_delete. destruct (decide (fname = k)), (decide (k = fname));
      congruence.
  - destruct (decide (k = fname)) as [-> |]; done.
Qed.

Lemma remove_loop_dir (upload_id : Z) (rest acc : list Upload) (w : World)
    (k : string) :
  upload_dir (remove_loop upload_id rest acc w).2 !! k
  = if decide (k ∈ up_filename <$> filter (λ u, up_id u = upload_id) rest)
    then None else upload_dir w !! k.
Proof.
  revert acc w. induction rest as [|u rest IH]; intros acc w; simpl.
  - reflexivity.
  - rewrite filter_cons. destruct (decide (up_id u = upload_id)) as [Hid | Hid].
    + rewrite bool_decide_eq_true_2 by done. unfold mbind, IO_bind.
      destruct (unlink_if_exists (up_filename u) w) as [[] w1] eqn:Hun.
      rewrite IH. pose proof (unlink_lookup (up_filename u) k w) as Hk.
      rewrite Hun in Hk. simpl in Hk. rewrite Hk, fmap_cons.
      destruct (decide (k = up_filename u)) as [-> | Hne].
      * rewrite (decide_True (P := _ ∈ _ :: _)) by (by left).
        by destruct (decide _).
      * destruct (decide (k ∈ up_filename <$> filter _ rest)) as [Hin | Hnin].
        -- rewrite decide_True; [done | by right].
        -- rewrite decide_False; [done |]. by intros [? | ?]%elem_of_cons.
    + rewrite bool_decide_eq_false_2 by done. apply IH.
Qed.

(** The directory [remove_upload] leaves: the files named by the removed
    records are gone, the others are as before. *)
Lemma remove_upload_dir (upload_id : Z) (w : World) (k : string) :
  upload_dir (remove_upload upload_id w).2 !! k
  = if decide (k ∈ up_filename
                 <$> filter (λ u, up_id u = upload_id) (stored_uploads w))
    then None else upload_dir w !! k.
Proof.
  pose proof (load_data_upload_dir w) as Hdir.
  unfold remove_upload, stored_uploads, stored, mbind, IO_bind in *.
  destruct (load_data w) as [d w1]. simpl in *.
  pose proof (remove_loop_dir upload_id (get_list (uploads d)) [] w1 k) as Hloop.
  destruct (remove_loop upload_id (get_list (uploads d)) [] w1) as [l w2].
  simpl in *. by rewrite Hloop, Hdir.
Qed.

Lemma py_max_snoc (l : list Z) (x : Z) :
  py_max l 0 < x → py_max (l ++ [x]) 0 = x.
Proof.
  destruct l as [|y ys]; simpl; [done |].
  rewrite foldl_app. simpl. lia.
Qed.

(** ** The upload registry: further properties *)

(** X2: [add_upload] keeps every stored record, in order, and appends the
    new one; the new record carries the arguments of the call; its file is
    written under its storage name and no other file is touched; users,
    projects, messages and dashboards stay as they are. *)
Theorem add_upload_appends uuid_hex now project_id project_name team uploaded_by
    file_obj final (w : World) :
  ∃ (entry : Upload) (w' : World),
    add_upload uuid_hex now project_id project_name team uploaded_by
      file_obj final w = (entry, w')
    ∧ stored_uploads w' = stored_uploads w ++ [entry]
    ∧ (up_project_id entry = project_id ∧ up_project_name entry = project_name
       ∧ up_team entry = team ∧ up_uploaded_by entry = uploaded_by
       ∧ up_original_name entry = fo_name file_obj ∧ up_ts entry = now
       ∧ up_final entry = final)
    ∧ upload_dir w' = <[up_filename entry := fo_buffer file_obj]> (upload_dir w)
    ∧ (users (stored w') = users (stored w)
       ∧ projects (stored w') = projects (stored w)
       ∧ messages (stored w') = messages (stored w)
       ∧ dashboards (stored w') = dashboards (stored w)).
Proof.
  pose (a := {| ca_uuid_hex := uuid_hex; ca_now := now;
                ca_project_id := project_id; ca_project_name := project_name;
                ca_team := team; ca_uploaded_by := uploaded_by;
                ca_file_obj := file_obj; ca_final := final |}).
  destruct (create_world a w) as [Hfile Hdir].
  destruct (add_upload_spec uuid_hex now project_id project_name team
              uploaded_by file_obj final w) as (w' & Hrun & _).
  change (add_upload uuid_hex now project_id project_name team uploaded_by
            file_obj final w) with (create a w) in Hrun.
  rewrite Hrun in Hfile, Hdir. simpl in Hfile, Hdir.
  eexists _, w'. split; [exact Hrun |].
  unfold stored_uploads at 1. rewrite (stored_data_file _ _ Hfile). simpl.
  by repeat split.
Qed.

(** X3: if no two stored uploads share an id, this is still so after
    [add_upload], after [remove_upload] and after [replace_upload]. *)
Theorem registry_keeps_ids_unique (w : World) :
  ids_unique w →
  (∀ a : CreateArgs, ids_unique (create a w).2)
  ∧ (∀ upload_id : Z, ids_unique (remove_upload upload_id w).2)
  ∧ (∀ (uuid_hex now : string) (upload_id : Z) (file_obj : FileObj)
       (uploaded_by : string),
       ids_unique
         (replace_upload uuid_hex now upload_id file_obj uploaded_by w).2).
Proof.
  unfold ids_unique. intros Huniq. split; [| split].
  - intros a. destruct (create_entry a w) as [_ ->].
    rewrite fmap_app. apply NoDup_app. split; [done |]. split.
    + intros x Hx Hnew. apply list_elem_of_singleton in Hnew as ->.
      apply list_elem_of_fmap in Hx as (u & Hid & Hu).
      pose proof (create_id_above a w u Hu). lia.
    + apply NoDup_singleton.
  - intros upload_id. rewrite remove_upload_stored.
    apply (sublist_NoDup _ (up_id <$> stored_uploads w)); [done |].
    apply fmap_sublist, sublist_filter.
  - intros. by rewrite replace_upload_ids.
Qed.

Lemma registry_keeps_ids_unique_witness :
  ids_unique two_uploads_world
  ∧ ids_unique (remove_upload 1 two_uploads_world).2.
Proof.
  assert (Huniq : ids_unique two_uploads_world) by compute_done.
  split; [exact Huniq |].
  exact (proj1 (proj2 (registry_keeps_ids_unique two_uploads_world Huniq)) 1).
Defined.

(** X4: a run of creates only assigns consecutive ids, starting one above
    the greatest stored id (from 1 on an empty registry). *)
Theorem creates_assign_consecutive_ids (ops : list Op) (w : World) :
  Forall is_create ops →
  (run_ops ops w).1
  = (λ k : nat, py_max (up_id <$> stored_uploads w) 0 + 1 + Z.of_nat k)
      <$> seq 0 (length ops).
Proof.
  revert w. induction ops as [|op ops IH]; intros w Hall; [reflexivity |].
  apply Forall_cons in Hall as [Hop Hall].
  destruct op as [a | r]; [clear Hop | done].
  simpl. unfold mbind, IO_bind.
  destruct (create_entry a w) as [Hid Hstored].
  destruct (create a w) as [e w1]. simpl in Hid, Hstored.
  specialize (IH w1 Hall). destruct (run_ops ops w1) as [ids w2].
  simpl in *. subst ids. f_equal; [lia |].
  rewrite Hstored, fmap_app. simpl.
  rewrite (py_max_snoc (up_id <$> stored_uploads w) (up_id e)) by lia.
  rewrite <- (fmap_S_seq 0), <- list_fmap_compose.
  apply list_fmap_ext. intros _ k _. simpl. lia.
Qed.

Lemma creates_assign_consecutive_ids_witness :
  Forall is_create
    [OpCreate (sample_create "c3" "2024-01-01T10:02:00");
     OpCreate (sample_create "d4" "2024-01-01T10:03:00")]
  ∧ (run_ops [OpCreate (sample_create "c3" "2024-01-01T10:02:00");
              OpCreate (sample_create "d4" "2024-01-01T10:03:00")]
       two_uploads_world).1 = [3; 4].
Proof.
  assert (Hall : Forall is_create
            [OpCreate (sample_create "c3" "2024-01-01T10:02:00");
             OpCreate (sample_create "d4" "2024-01-01T10:03:00")]).
  { repeat constructor. }
  split; [exact Hall |].
  rewrite (creates_assign_consecutive_ids _ two_uploads_world Hall).
  vm_compute. reflexivity.
Defined.

(** X5: [remove_upload] keeps the stored uploads with another id in their
    order; the file named by a removed record is gone from the upload
    directory, a file no removed record names is as before; users,
    projects, messages and dashboards stay as they are. *)
Theorem remove_upload_effects (upload_id : Z) (w : World) :
  let w' := (remove_upload upload_id w).2 in
  stored_uploads w' `sublist_of` stored_uploads w
  ∧ (∀ u : Upload,
        u ∈ stored_uploads w → up_id u ≠ upload_id → u ∈ stored_uploads w')
  ∧ (∀ u : Upload,
        u ∈ stored_uploads w → up_id u = upload_id →
        upload_dir w' !! up_filename u = None)
  ∧ (∀ k : string,
        (∀ u : Upload, u ∈ stored_uploads w → up_id u = upload_id →
                       up_filename u ≠ k) →
        upload_dir w' !! k = upload_dir w !! k)
  ∧ (users (stored w') = users (stored w)
     ∧ projects (stored w') = projects (stored w)
     ∧ messages (stored w') = messages (stored w)
     ∧ dashboards (stored w') = dashboards (stored w)).
Proof.
  intros w'. subst w'. split; [| split; [| split; [| split]]].
  - rewrite remove_upload_stored. apply sublist_filter.
  - intros u Hu Hid. rewrite remove_upload_stored.
    by apply list_elem_of_filter.
  - intros u Hu Hid. rewrite remove_upload_dir.
    rewrite decide_True; [done |].
    apply list_elem_of_fmap_2. by apply list_elem_of_filter.
  - intros k Hk. rewrite remove_upload_dir.
    rewrite decide_False; [done |].
    intros (u & -> & [Hid Hu]%list_elem_of_filter)%list_elem_of_fmap.
    by apply (Hk u).
  - by rewrite (stored_data_file _ _ (remove_upload_data_file upload_id w)).
Qed.

Lemma remove_upload_effects_witness :
  let u := (create (sample_create "a1" "2024-01-01T10:00:00") empty_world).1 in
  (u ∈ stored_uploads two_uploads_world ∧ up_id u = 1)
  ∧ upload_dir (remove_upload 1 two_uploads_world).2 !! up_filename u = None.
Proof.
  intros u.
  assert (Hin : u ∈ stored_uploads two_uploads_world) by (vm_compute; constructor).
  assert (Hid : up_id u = 1) by reflexivity.
  split; [by split |].
  exact (proj1 (proj2 (proj2 (remove_upload_effects 1 two_uploads_world)))
           u Hin Hid).
Defined.

(** X6: [replace_upload] on a stored id writes the new file under the new
    storage name, deletes the file the record named before (unless both
    names coincide), touches no other file, and leaves users, projects,
    messages and dashboards as they are. *)
Theorem replace_upload_files uuid_hex now upload_id file_obj uploaded_by (w : World) :
  upload_id ∈ (up_id <$> stored_uploads w) →
  let w' := (replace_upload uuid_hex now upload_id file_obj uploaded_by w).2 in
  ∃ u : Upload,
    u ∈ stored_uploads w ∧ up_id u = upload_id
    ∧ upload_dir w' !! storage_name uuid_hex file_obj = Some (fo_buffer file_obj)
    ∧ (up_filename u ≠ storage_name uuid_hex file_obj →
       upload_dir w' !! up_filename u = None)
    ∧ (∀ k : string,
          k ≠ storage_name uuid_hex file_obj → k ≠ up_filename u →
          upload_dir w' !! k = upload_dir w !! k)
    ∧ (users (stored w') = users (stored w)
       ∧ projects (stored w') = projects (stored w)
       ∧ messages (stored w') = messages (stored w)
       ∧ dashboards (stored w') = dashboards (stored w)).
Proof.
  intros Hin w'. subst w'.
  destruct (replace_upload_present uuid_hex now upload_id file_obj uploaded_by
              w Hin) as (i & u & Hi & Hu & Hfile & Hdir).
  exists u. split; [by eapply list_elem_of_lookup_2 |]. split; [done |].
  rewrite Hdir, (stored_data_file _ _ Hfile).
  split; [by rewrite lookup_insert_eq |]. split; [| split].
  - intros Hne. rewrite lookup_insert_ne by done. by rewrite lookup_delete_eq.
  - intros k Hnew Hold. rewrite lookup_insert_ne by done.
    by rewrite lookup_delete_ne.
  - done.
Qed.

Lemma replace_upload_files_witness :
  2 ∈ (up_id <$> stored_uploads two_uploads_world)
  ∧ upload_dir (replace_upload "d4" "2024-01-02T08:00:00" 2 replacement_file
                  "ravi" two_uploads_world).2 !! "d4_bom_v2.csv"
    = Some [].
Proof.
  assert (Hin : 2 ∈ (up_id <$> stored_uploads two_uploads_world)) by compute_done.
  split; [exact Hin |].
  destruct (replace_upload_files "d4" "2024-01-02T08:00:00" 2 replacement_file
              "ravi" two_uploads_world Hin) as (u & _ & _ & Hnew & _).
  exact Hnew.
Defined.

(** X7: while storage names are pairwise distinct, the registry never
    leaves a stored upload without its file: if every stored upload names
    an existing file, this is still so, and the names are still distinct,
    after [add_upload] and after [replace_upload] under a storage name not
    in use, and after [remove_upload]. *)
Theorem registry_keeps_blobs (w : World) :
  names_unique w → blobs_present w →
  (∀ a : CreateArgs,
      storage_name (ca_uuid_hex a) (ca_file_obj a)
        ∉ (up_filename <$> stored_uploads w) →
      names_unique (create a w).2 ∧ blobs_present (create a w).2)
  ∧ (∀ upload_id : Z,
      names_unique (remove_upload upload_id w).2
      ∧ blobs_present (remove_upload upload_id w).2)
  ∧ (∀ (uuid_hex now : string) (upload_id : Z) (file_obj : FileObj)
       (uploaded_by : string),
      storage_name uuid_hex file_obj ∉ (up_filename <$> stored_uploads w) →
      names_unique (replace_upload uuid_hex now upload_id file_obj uploaded_by w).2
      ∧ blobs_present
          (replace_upload uuid_hex now upload_id file_obj uploaded_by w).2).
Proof.
  unfold names_unique, blobs_present. intros Hnames Hblobs.
  split; [| split].
  - intros a Hfresh. destruct (create_world a w) as [_ Hdir].
    destruct (create_entry a w) as [_ Hstored]. rewrite Hstored, Hdir.
    assert (Hname : up_filename (create a w).1
                    = storage_name (ca_uuid_hex a) (ca_file_obj a)).
    { unfold create, add_upload, load_data, mbind, IO_bind.
      by destruct (data_file w). }
    split.
    + rewrite fmap_app. apply NoDup_app. split; [done |]. split; [| apply NoDup_singleton].
      intros k Hk Hnew. apply list_elem_of_singleton in Hnew. simpl in Hnew.
      rewrite Hname in Hnew. by subst k.
    + apply Forall_app. split.
      * eapply Forall_impl; [exact Hblobs |]. intros u [b Hb]. simpl.
        destruct (decide (storage_name (ca_uuid_hex a) (ca_file_obj a)
                          = up_filename u)) as [<- | Hne].
        -- rewrite lookup_insert_eq. by eexists.
        -- rewrite lookup_insert_ne by done. by eexists.
      * apply Forall_singleton. rewrite Hname, lookup_insert_eq. by eexists.
  - intros upload_id. rewrite remove_upload_stored. split.
    + apply (sublist_NoDup _ (up_filename <$> stored_uploads w)); [done |].
      apply fmap_sublist, sublist_filter.
    + apply Forall_forall. intros u [Hid Hu]%list_elem_of_filter.
      rewrite remove_upload_dir. rewrite decide_False.
      * by apply (proj1 (Forall_forall _ _) Hblobs).
      * intros (v & Hname & [Hv Hvin]%list_elem_of_filter)%list_elem_of_fmap.
        assert (u = v) by (by apply (NoDup_fmap_elem_inj up_filename (stored_uploads w))).
        by subst v.
  - intros uuid_hex now upload_id file_obj uploaded_by Hfresh.
    destruct (decide (upload_id ∈ (up_id <$> stored_uploads w))) as [Hin | Hnot].
    + destruct (replace_upload_present uuid_hex now upload_id file_obj
                  uploaded_by w Hin) as (i & u & Hi & Hu & Hfile & Hdir).
      assert (Hstored : stored_uploads
                          (replace_upload uuid_hex now upload_id file_obj
                             uploaded_by w).2
                        = <[i := replaced uuid_hex now file_obj uploaded_by u]>
                            (stored_uploads w)).
      { unfold stored_uploads at 1. by rewrite (stored_data_file _ _ Hfile). }
      rewrite Hstored, Hdir. split.
      * rewrite list_fmap_insert. simpl. by apply NoDup_insert_fresh.
      * apply Forall_forall. intros v [j Hj]%list_elem_of_lookup.
        apply list_lookup_insert_Some in Hj as [(_ & <- & _) | [Hne Hj]]; simpl.
        -- rewrite lookup_insert_eq. by eexists.
        -- assert (Hv : is_Some (upload_dir w !! up_filename v)).
           { apply (proj1 (Forall_forall _ _) Hblobs).
             by eapply list_elem_of_lookup_2. }
           assert (Hold : up_filename v ≠ up_filename u).
           { intros Heq. apply Hne.
             apply (NoDup_lookup (up_filename <$> stored_uploads w) i j
                      (up_filename u)); [done | |];
               rewrite list_lookup_fmap; [by rewrite Hi | rewrite Hj; simpl; by rewrite Heq]. }
           destruct (decide (storage_name uuid_hex file_obj = up_filename v))
             as [<- | Hnew].
           ++ rewrite lookup_insert_eq. by eexists.
           ++ rewrite lookup_insert_ne by done. by rewrite lookup_delete_ne.
    + rewrite (replace_upload_missing _ _ _ _ _ _ Hnot). simpl.
      unfold stored_uploads. by rewrite load_data_idem, load_data_upload_dir.
Qed.

Lemma registry_keeps_blobs_witness :
  (names_unique two_uploads_world ∧ blobs_present two_uploads_world)
  ∧ names_unique (remove_upload 1 two_uploads_world).2
  ∧ blobs_present (remove_upload 1 two_uploads_world).2.
Proof.
  assert (Hnames : names_unique two_uploads_world) by compute_done.
  assert (Hblobs : blobs_present two_uploads_world) by compute_done.
  split; [by split |].
  exact (proj1 (proj2 (registry_keeps_blobs two_uploads_world Hnames Hblobs)) 1).
Defined.

(** X8: after [add_upload] for a project, [get_uploads_for_project] of
    that project returns what it returned before followed by the new
    record; the listing of any other project is unchanged. *)
Theorem add_upload_listed_for_project uuid_hex now project_id project_name team
    uploaded_by file_obj final (q : Z) (w : World) :
  let r := add_upload uuid_hex now project_id project_name team uploaded_by
             file_obj final w in
  (get_uploads_for_project q r.2).1
  = (get_uploads_for_project q w).1
    ++ (if decide (q = project_id) then [r.1] else []).
Proof.
  intros r. subst r.
  pose (a := {| ca_uuid_hex := uuid_hex; ca_now := now;
                ca_project_id := project_id; ca_project_name := project_name;
                ca_team := team; ca_uploaded_by := uploaded_by;
                ca_file_obj := file_obj; ca_final := final |}).
  change (add_upload uuid_hex now project_id project_name team uploaded_by
            file_obj final w) with (create a w).
  destruct (create_entry a w) as [_ Hstored].
  assert (Hpid : up_project_id (create a w).1 = project_id).
  { unfold create, add_upload, load_data, mbind, IO_bind.
    by destruct (data_file w). }
  assert (Hlist : ∀ w0 : World,
             (get_uploads_for_project q w0).1
             = filter (λ u, up_project_id u = q) (stored_uploads w0)).
  { intros w0. unfold get_uploads_for_project, stored_uploads, stored, mbind, IO_bind.
    by destruct (load_data w0). }
  rewrite !Hlist, Hstored, filter_app. f_equal.
  rewrite filter_cons, filter_nil, Hpid.
  destruct (decide (project_id = q)), (decide (q = project_id)); congruence.
Qed.

(** ** Messages *)

Lemma get_messages_spec (project team : option string) (w : World) :
  (get_messages project team w).1
  = filter (λ m, (truthy project = false ∨ msg_project m = project)
                 ∧ (truthy team = false ∨ msg_team m = team))
      (get_list (messages (stored w))).
Proof.
  unfold get_messages, stored, mbind, IO_bind.
  destruct (load_data w) as [d w1]. simpl.
  destruct (truthy project) eqn:Hp, (truthy team) eqn:Ht.
  - rewrite list_filter_filter. apply list_filter_iff. intros m.
    split; [intros [? ?]; split; by right | intros [[? | ?] [? | ?]]; done].
  - apply list_filter_iff. intros m.
    split; [intros ?; split; [by right | by left] | intros [[? | ?] _]; done].
  - apply list_filter_iff. intros m.
    split; [intros ?; split; [by left | by right] | intros [_ [? | ?]]; done].
  - symmetry. induction (get_list (messages d)) as [|m l IH]; [done |].
    rewrite filter_cons_True by (split; by left). by rewrite IH.
Qed.

Lemma save_message_stored now frm to project team text (w : World) :
  data_file (save_message now frm to project team text w).2
  = Some (set_messages (stored w)
            (get_list (messages (stored w))
             ++ [{| msg_from := frm; msg_to := to; msg_project := project;
                    msg_team := team; msg_text := text; msg_ts := now |}]))
  ∧ upload_dir (save_message now frm to project team text w).2 = upload_dir w.
Proof.
  unfold save_message, stored, load_data, mbind, IO_bind.
  destruct (data_file w); simpl; split; reflexivity.
Qed.

(** X9: [save_message] appends one message with the given fields after
    the stored ones and touches nothing else; a following [get_messages]
    returns its former result, followed by the new message exactly when
    the message passes the filters asked for. *)
Theorem save_message_then_get now frm to project team text
    (p t : option string) (w : World) :
  let note := {| msg_from := frm; msg_to := to; msg_project := project;
                 msg_team := team; msg_text := text; msg_ts := now |} in
  let w' := (save_message now frm to project team text w).2 in
  get_list (messages (stored w')) = get_list (messages (stored w)) ++ [note]
  ∧ (get_messages p t w').1
    = (get_messages p t w).1
      ++ (if (negb (truthy p) || bool_decide (project = p))
             && (negb (truthy t) || bool_decide (team = t))
          then [note] else [])
  ∧ (users (stored w') = users (stored w)
     ∧ projects (stored w') = projects (stored w)
     ∧ uploads (stored w') = uploads (stored w)
     ∧ dashboards (stored w') = dashboards (stored w)
     ∧ upload_dir w' = upload_dir w).
Proof.
  intros note w'. subst w'.
  destruct (save_message_stored now frm to project team text w) as [Hfile Hdir].
  assert (Hmsgs : get_list (messages
                     (stored (save_message now frm to project team text w).2))
                  = get_list (messages (stored w)) ++ [note]).
  { by rewrite (stored_data_file _ _ Hfile). }
  split; [exact Hmsgs |]. split.
  - rewrite !get_messages_spec, Hmsgs, filter_app. f_equal.
    rewrite filter_cons, filter_nil. subst note. simpl.
    destruct (decide _) as [[Hp Ht] | Hnot].
    + assert (Hpb : negb (truthy p) || bool_decide (project = p) = true).
      { destruct Hp as [-> | ->]; [done |].
        rewrite bool_decide_eq_true_2 by done. apply orb_true_r. }
      assert (Htb : negb (truthy t) || bool_decide (team = t) = true).
      { destruct Ht as [-> | ->]; [done |].
        rewrite bool_decide_eq_true_2 by done. apply orb_true_r. }
      by rewrite Hpb, Htb.
    + destruct (truthy p) eqn:Hp, (truthy t) eqn:Ht; simpl;
        repeat case_bool_decide; simpl; try done;
        exfalso; apply Hnot; split; (by left) || (by right).
  - by rewrite (stored_data_file _ _ Hfile).
Qed.

(** X10: whatever the arguments, [get_messages] returns some of the
    stored messages, in stored order, and nothing else; without arguments,
    or with empty strings, it returns all of them. *)
Theorem get_messages_sublist (project team : option string) (w : World) :
  (get_messages project team w).1 `sublist_of` get_list (messages (stored w))
  ∧ (get_messages None None w).1 = get_list (messages (stored w))
  ∧ (get_messages (Some "") (Some "") w).1 = get_list (messages (stored w)).
Proof.
  split; [rewrite get_messages_spec; apply sublist_filter |].
  unfold get_messages, stored, mbind, IO_bind.
  by destruct (load_data w).
Qed.

(** X11: the Send Message button stores nothing and reports an error for
    a text that is empty or only white space; otherwise it stores one
    message from the user, with the text stripped, for the selected
    project and team, addressed to the chosen recipient, or to nobody in
    particular when the entry "All" was chosen. *)
Theorem messenger_send_validates now (user : User) (sel_proj_display : string)
    (sel_team : option string) (recipient msg_text : string) (w : World) :
  (strip msg_text = "" →
   messenger_send now user sel_proj_display sel_team recipient msg_text w
   = (false, w))
  ∧ (strip msg_text ≠ "" →
     let r := messenger_send now user sel_proj_display sel_team recipient
                msg_text w in
     r.1 = true
     ∧ get_list (messages (stored r.2))
       = get_list (messages (stored w))
         ++ [{| msg_from := usr_name user;
                msg_to := if bool_decide (recipient = "All") then None
                          else Some recipient;
                msg_project := Some sel_proj_display;
                msg_team := sel_team;
                msg_text := strip msg_text;
                msg_ts := now |}]).
Proof.
  unfold messenger_send. split; intros Htext.
  - by rewrite bool_decide_eq_false_2 by (intros Hne; by apply Hne).
  - rewrite bool_decide_eq_true_2 by done. unfold mbind, IO_bind.
    match goal with |- context [save_message ?a ?b ?c ?d ?e ?f w] =>
      destruct (save_message_stored a b c d e f w) as [Hfile _];
      destruct (save_message a b c d e f w) as [[] w1]
    end.
    simpl in *. split; [done |].
    rewrite (stored_data_file _ _ Hfile). simpl.
    by repeat case_bool_decide.
Qed.

Lemma messenger_send_validates_witness :
  strip "  " = ""
  ∧ messenger_send "2024-03-01T08:00:00" member_asha "Project 2" (Some "Tooling")
      "All" "  " one_message_world
    = (false, one_message_world).
Proof.
  assert (Htext : strip "  " = "") by reflexivity.
  split; [exact Htext |].
  exact (proj1 (messenger_send_validates "2024-03-01T08:00:00" member_asha
                  "Project 2" (Some "Tooling") "All" "  " one_message_world)
           Htext).
Defined.

(** X12: the Messenger tab writes out the last fifty entries of the list
    [relevant], or all of them when there are fewer. *)
Theorem displayed_messages_bound (user : User) (sel_proj_display : string)
    (sel_team : option string) (w : World) :
  let relevant := (relevant_messages user sel_proj_display sel_team w).1 in
  let shown := (displayed_messages user sel_proj_display sel_team w).1 in
  shown `suffix_of` relevant
  ∧ length shown = (length relevant `min` 50)%nat
  ∧ ((length relevant ≤ 50)%nat → shown = relevant).
Proof.
  intros relevant shown.
  assert (Hshown : shown = last_n 50 relevant).
  { subst relevant shown. unfold displayed_messages, mbind, IO_bind.
    by destruct (relevant_messages user sel_proj_display sel_team w). }
  rewrite Hshown. clearbody relevant. clear Hshown shown. unfold last_n.
  split; [apply suffix_drop |]. split.
  - rewrite length_drop. lia.
  - intros Hle. by replace (length relevant - 50)%nat with 0%nat by lia.
Qed.

Lemma displayed_messages_bound_witness :
  (length (relevant_messages member_asha "Project 2" (Some "Tooling")
             one_message_world).1 ≤ 50)%nat
  ∧ (displayed_messages member_asha "Project 2" (Some "Tooling")
       one_message_world).1
    = (relevant_messages member_asha "Project 2" (Some "Tooling")
         one_message_world).1.
Proof.
  assert (Hle : (length (relevant_messages member_asha "Project 2"
                           (Some "Tooling") one_message_world).1 ≤ 50)%nat)
    by (vm_compute; lia).
  split; [exact Hle |].
  exact (proj2 (proj2 (displayed_messages_bound member_asha "Project 2"
                         (Some "Tooling") one_message_world)) Hle).
Defined.

(** ** Tabs and the admin handlers *)

(** X13: the four common tabs are offered to everyone; "Final BOM" is
    offered exactly to project_lead, admin and superadmin; "Assigning" and
    "Admin" exactly to admin and superadmin; no tab is listed twice.  So
    whoever can select the Admin tab passes the role test inside it. *)
Theorem tabs_by_role (user : User) :
  (∀ t : string, t ∈ ["Personal"; "Central"; "Analysis"; "Messenger"] →
                 t ∈ tabs user)
  ∧ ("Final BOM" ∈ tabs user ↔
     usr_role user ∈ ["project_lead"; "admin"; "superadmin"])
  ∧ ("Assigning" ∈ tabs user ↔ usr_role user ∈ ["admin"; "superadmin"])
  ∧ ("Admin" ∈ tabs user ↔ usr_role user ∈ ["admin"; "superadmin"])
  ∧ NoDup (tabs user)
  ∧ ("Admin" ∈ tabs user →
     ∀ (d : Document) (target_id : Z) (w : World),
       (admin_reset_pin user d target_id w).1 = true).
Proof.
  assert (Hadmin : "Admin" ∈ tabs user ↔ usr_role user ∈ ["admin"; "superadmin"]).
  { unfold tabs. repeat case_bool_decide; split; intros Hmem; try done;
      try (exfalso; revert Hmem; compute_done); compute_done. }
  split; [| split; [| split; [| split; [| split]]]]; try exact Hadmin.
  - intros t Ht. unfold tabs.
    repeat case_bool_decide;
      repeat (apply elem_of_cons in Ht as [-> | Ht]; [compute_done |]);
      by apply elem_of_nil in Ht.
  - unfold tabs. repeat case_bool_decide; split; intros Hmem; try done;
      try (exfalso; revert Hmem; compute_done); compute_done.
  - unfold tabs. repeat case_bool_decide; split; intros Hmem; try done;
      try (exfalso; revert Hmem; compute_done); compute_done.
  - unfold tabs. repeat case_bool_decide; compute_done.
  - intros Htab d target_id w. apply Hadmin in Htab.
    unfold admin_reset_pin.
    by rewrite bool_decide_eq_false_2 by (intros Hnot; by apply Hnot).
Qed.

Lemma tabs_by_role_witness :
  "Admin" ∈ tabs admin_mira
  ∧ (admin_reset_pin admin_mira init_doc 7 empty_world).1 = true.
Proof.
  assert (Htab : "Admin" ∈ tabs admin_mira) by compute_done.
  split; [exact Htab |].
  exact (proj2 (proj2 (proj2 (proj2 (proj2 (tabs_by_role admin_mira))))) Htab
           init_doc 7 empty_world).
Defined.

(** X14: the Remove button of the Admin tab does nothing for a role other
    than admin and superadmin, reports an error and changes nothing for an
    admin, and for a superadmin stores the users with another id, in their
    order; uploads, messages and files of the removed user stay. *)
Theorem admin_remove_user_by_role (user : User) (d : Document) (target_id : Z)
    (w : World) :
  (usr_role user ∉ ["admin"; "superadmin"] →
   admin_remove_user user d target_id w = (None, w))
  ∧ (usr_role user = "admin" →
     admin_remove_user user d target_id w = (Some false, w))
  ∧ (usr_role user = "superadmin" →
     let r := admin_remove_user user d target_id w in
     r.1 = Some true
     ∧ get_list (users (stored r.2))
       = filter (λ x, usr_id x ≠ target_id) (get_list (users d))
     ∧ (target_id ∉ (usr_id <$> get_list (users (stored r.2))))
     ∧ (projects (stored r.2) = projects d ∧ uploads (stored r.2) = uploads d
        ∧ messages (stored r.2) = messages d
        ∧ dashboards (stored r.2) = dashboards d
        ∧ upload_dir r.2 = upload_dir w)).
Proof.
  unfold admin_remove_user. split; [| split].
  - intros Hrole. by rewrite bool_decide_eq_true_2.
  - intros Hrole. rewrite Hrole. reflexivity.
  - intros Hrole. rewrite Hrole. simpl. split; [done |]. split; [done |].
    split; [| done].
    intros (x & Hid & [Hne _]%list_elem_of_filter)%list_elem_of_fmap.
    by apply Hne.
Qed.

Lemma admin_remove_user_by_role_witness :
  usr_role admin_mira = "admin"
  ∧ admin_remove_user admin_mira (stored twin_users_world) 8 twin_users_world
    = (Some false, twin_users_world).
Proof.
  assert (Hrole : usr_role admin_mira = "admin") by reflexivity.
  split; [exact Hrole |].
  exact (proj1 (proj2 (admin_remove_user_by_role admin_mira
                         (stored twin_users_world) 8 twin_users_world)) Hrole).
Defined.

(** ** Login after the admin handlers *)

(** [find_user_in] commutes with an update of the records that keeps
    names and roles. *)
Lemma find_user_in_fmap (f : User → User) (us : list User) (name role : string) :
  (∀ u : User, usr_name (f u) = usr_name u ∧ usr_role (f u) = usr_role u) →
  find_user_in (f <$> us) name role = f <$> find_user_in us name role.
Proof.
  intros Hf. induction us as [|u us IH]; [done |].
  rewrite fmap_cons. simpl. unfold name_role_match at 1.
  destruct (Hf u) as [-> ->]. fold (name_role_match name role u).
  by destruct (name_role_match name role u).
Qed.

Lemma login_result (role name pin : string) (w : World) (us : list User) :
  users (stored w) = Some us →
  (login role name pin w).1
  = match find_user_in us (strip name) role with
    | None => UserNotFound
    | Some user =>
        if bool_decide (Some (strip pin) = usr_pin user)
        then LoggedIn user else InvalidPin
    end.
Proof.
  unfold login, find_user, stored, mbind, IO_bind.
  destruct (load_data w) as [d w1]. simpl. intros ->. simpl.
  destruct (find_user_in us (strip name) role); simpl; [| done].
  by case_bool_decide.
Qed.

(** X15: once an admin has reset the PIN of a user who could log in, that
    user logs in under the same name and role with the PIN 0000, and with
    no PIN that strips to anything else; the old PIN in particular is
    refused unless it was 0000. *)
Theorem reset_pin_then_login (actor : User) (role name old_pin pin : string)
    (u : User) (w : World) :
  usr_role actor ∈ ["admin"; "superadmin"] →
  (login role name old_pin w).1 = LoggedIn u →
  (login role name pin (admin_tab_reset_pin actor (usr_id u) w).2).1
  = if bool_decide (strip pin = "0000")
    then LoggedIn (set_pin_0000 u) else InvalidPin.
Proof.
  intros Hrole Hlogin.
  destruct (users (stored w)) as [us|] eqn:Hus.
  - rewrite (login_result _ _ _ _ _ Hus) in Hlogin.
    destruct (find_user_in us (strip name) role) as [v|] eqn:Hfind; [| done].
    case_bool_decide; [| done]. injection Hlogin as ->.
    assert (Hus' : users (stored (admin_tab_reset_pin actor (usr_id u) w).2)
                   = Some (reset_pins_in (usr_id u) us)).
    { unfold admin_tab_reset_pin, admin_reset_pin, mbind, IO_bind, stored in *.
      destruct (load_data w) as [d w1]. simpl in *.
      rewrite bool_decide_eq_false_2 by (intros Hnot; by apply Hnot).
      simpl. unfold load_data. simpl. by rewrite Hus. }
    rewrite (login_result _ _ _ _ _ Hus'). unfold reset_pins_in.
    rewrite find_user_in_fmap, Hfind; [| intros x; by case_bool_decide].
    simpl. rewrite (bool_decide_eq_true_2 (usr_id u = usr_id u)) by done.
    simpl. repeat case_bool_decide; congruence.
  - exfalso. unfold login, find_user, stored, mbind, IO_bind in *.
    destruct (load_data w) as [d w1]. simpl in *. by rewrite Hus in Hlogin.
Qed.

Lemma reset_pin_then_login_witness :
  (usr_role admin_mira ∈ ["admin"; "superadmin"]
   ∧ (login "member" "asha" "1111" twin_users_world).1
     = LoggedIn (asha_with_pin 7 "1111"))
  ∧ (login "member" "asha" "1111"
       (admin_tab_reset_pin admin_mira 7 twin_users_world).2).1 = InvalidPin.
Proof.
  assert (Hrole : usr_role admin_mira ∈ ["admin"; "superadmin"]) by compute_done.
  assert (Hlogin : (login "member" "asha" "1111" twin_users_world).1
                   = LoggedIn (asha_with_pin 7 "1111")) by reflexivity.
  split; [by split |].
  exact (reset_pin_then_login admin_mira "member" "asha" "1111" "1111"
           (asha_with_pin 7 "1111") twin_users_world Hrole Hlogin).
Defined.

(** X16: the outcome of a login depends on the typed name only up to
    letter case and surrounding white space, and on the typed PIN only up
    to surrounding white space; nothing is written when the data file
    exists. *)
Theorem login_ignores_case_and_padding (role name1 name2 pin1 pin2 : string)
    (w : World) :
  lower (strip name1) = lower (strip name2) →
  strip pin1 = strip pin2 →
  login role name1 pin1 w = login role name2 pin2 w
  ∧ (is_Some (data_file w) → (login role name1 pin1 w).2 = w).
Proof.
  intros Hname Hpin.
  assert (Hfind : ∀ us : list User,
             find_user_in us (strip name1) role = find_user_in us (strip name2) role).
  { induction us as [|u us IH]; [done |]. simpl.
    unfold name_role_match. by rewrite Hname, IH. }
  unfold login, find_user, mbind, IO_bind. split.
  - destruct (load_data w) as [d w1]. simpl.
    destruct (users d) as [us|]; simpl; [| done].
    rewrite Hfind, Hpin. done.
  - intros [d Hfile]. unfold load_data. rewrite Hfile. simpl.
    destruct (users d) as [us|]; simpl; [| done].
    destruct (find_user_in us (strip name1) role); simpl; [| done].
    by case_bool_decide.
Qed.

Lemma login_ignores_case_and_padding_witness :
  (lower (strip " ASHA ") = lower (strip "asha") ∧ strip "1111 " = strip "1111")
  ∧ login "member" " ASHA " "1111 " twin_users_world
    = login "member" "asha" "1111" twin_users_world.
Proof.
  assert (Hname : lower (strip " ASHA ") = lower (strip "asha")) by reflexivity.
  assert (Hpin : strip "1111 " = strip "1111") by reflexivity.
  split; [by split |].
  exact (proj1 (login_ignores_case_and_padding "member" " ASHA " "asha" "1111 "
                  "1111" twin_users_world Hname Hpin)).
Defined.

(** ** The Assigning tab *)

Lemma assign_user_roles (new_role new_team new_project new_pin : string) (u : User) :
  ∃ roles' : list RoleEntry,
    usr_roles (assign_user new_role new_team new_project new_pin u) = Some roles'
    ∧ default [] (usr_roles u) `prefix_of` roles'
    ∧ (new_role, new_team, new_project) ∈ (role_key <$> roles')
    ∧ (NoDup (role_key <$> default [] (usr_roles u)) → NoDup (role_key <$> roles')).
Proof.
  unfold assign_user. simpl. eexists. split; [reflexivity |].
  case_bool_decide as Hex.
  - split; [done |]. split; [| done].
    apply Exists_exists in Hex as (r & Hr & Hrole & Hteam & Hproj).
    apply list_elem_of_fmap. exists r. split; [| done].
    unfold role_key. by rewrite Hrole, Hteam, Hproj.
  - split; [by apply prefix_app_r |]. split.
    + rewrite fmap_app. apply elem_of_app. right. by left.
    + intros Hnd. rewrite fmap_app. apply NoDup_app. split; [done |].
      split; [| apply NoDup_singleton].
      intros k Hk Hnew. apply list_elem_of_singleton in Hnew.
      unfold role_key in Hnew. simpl in Hnew. subst k.
      apply Hex. apply list_elem_of_fmap in Hk as (r & Hkey & Hr).
      apply Exists_exists. exists r. split; [done |].
      unfold role_key in Hkey. by injection Hkey as <- <- <-.
Qed.

Lemma assign_user_idem (new_role new_team new_project new_pin : string) (u : User) :
  assign_user new_role new_team new_project new_pin
    (assign_user new_role new_team new_project new_pin u)
  = assign_user new_role new_team new_project new_pin u.
Proof.
  destruct (assign_user_roles new_role new_team new_project new_pin u)
    as (roles' & Hroles & _ & Hin & _).
  set (v := assign_user new_role new_team new_project new_pin u) in *.
  assert (Hrole : usr_role v = new_role) by reflexivity.
  assert (Hteam : usr_team v = Some new_team) by reflexivity.
  assert (Hproj : usr_project v = Some new_project) by reflexivity.
  assert (Hpin : (if bool_decide (new_pin ≠ "") then Some (strip new_pin)
                  else usr_pin v) = usr_pin v).
  { subst v. simpl. by case_bool_decide. }
  assert (Hex : Exists (λ r, re_role r = new_role ∧ re_team r = new_team
                             ∧ re_project r = new_project) roles').
  { apply list_elem_of_fmap in Hin as (r & Hkey & Hr).
    apply Exists_exists. exists r. split; [done |].
    unfold role_key in Hkey. by injection Hkey as <- <- <-. }
  clearbody v. unfold assign_user. rewrite Hroles. simpl.
  rewrite (bool_decide_eq_true_2 _ Hex), Hpin.
  destruct v. simpl in *. by subst.
Qed.

(** X17: the Assign / Update button, pressed by an admin or superadmin,
    gives every user named as selected the new role, team and project,
    keeps their id and name, changes their PIN only when a PIN was typed
    (to the typed PIN, stripped), and leaves their log of roles with its
    old entries first and an entry for the new role, team and project;
    every other user and every other collection is as before. *)
Theorem assigning_apply_effects (actor : User) (d : Document)
    (sel_name new_role new_team new_project new_pin : string)
    (us : list User) (w : World) :
  usr_role actor ∈ ["admin"; "superadmin"] →
  users d = Some us → us ≠ [] →
  ∃ (w' : World) (us' : list User),
    assigning_apply actor d sel_name new_role new_team new_project new_pin w
    = (true, w')
    ∧ users (stored w') = Some us'
    ∧ length us' = length us
    ∧ (∀ (i : nat) (x : User),
          us !! i = Some x → usr_name x = sel_name →
          ∃ (x' : User) (roles' : list RoleEntry),
            us' !! i = Some x'
            ∧ usr_id x' = usr_id x ∧ usr_name x' = usr_name x
            ∧ usr_role x' = new_role ∧ usr_team x' = Some new_team
            ∧ usr_project x' = Some new_project
            ∧ usr_pin x' = (if bool_decide (new_pin ≠ "")
                            then Some (strip new_pin) else usr_pin x)
            ∧ usr_roles x' = Some roles'
            ∧ default [] (usr_roles x) `prefix_of` roles'
            ∧ (new_role, new_team, new_project) ∈ (role_key <$> roles'))
    ∧ (∀ (i : nat) (x : User),
          us !! i = Some x → usr_name x ≠ sel_name → us' !! i = Some x)
    ∧ (projects (stored w') = projects d ∧ uploads (stored w') = uploads d
       ∧ messages (stored w') = messages d
       ∧ dashboards (stored w') = dashboards d
       ∧ upload_dir w' = upload_dir w).
Proof.
  intros Hrole Hus Hne. unfold assigning_apply.
  rewrite bool_decide_eq_false_2 by (intros Hnot; by apply Hnot).
  unfold get_list. rewrite Hus. simpl.
  destruct us as [|u0 us0] eqn:Hlist; [done |]. rewrite <- Hlist in *.
  eexists _, (assign_in sel_name new_role new_team new_project new_pin us).
  split; [reflexivity |]. simpl.
  assert (Hat : ∀ (i : nat) (x : User), us !! i = Some x →
            assign_in sel_name new_role new_team new_project new_pin us !! i
            = Some (if bool_decide (usr_name x = sel_name)
                    then assign_user new_role new_team new_project new_pin x
                    else x)).
  { intros i x Hi. unfold assign_in. by rewrite list_lookup_fmap, Hi. }
  split; [done |]. split; [apply length_fmap |]. split; [| split; [| done]].
  - intros i x Hi Hname.
    destruct (assign_user_roles new_role new_team new_project new_pin x)
      as (roles' & Hroles & Hpre & Hin & _).
    exists (assign_user new_role new_team new_project new_pin x), roles'.
    rewrite (Hat i x Hi), bool_decide_eq_true_2 by done.
    by repeat split.
  - intros i x Hi Hname. rewrite (Hat i x Hi).
    by rewrite bool_decide_eq_false_2.
Qed.

Lemma assigning_apply_effects_witness :
  (usr_role admin_mira ∈ ["admin"; "superadmin"]
   ∧ users (stored twin_users_world)
     = Some [asha_with_pin 7 "1111"; asha_with_pin 8 "2222"]
   ∧ [asha_with_pin 7 "1111"; asha_with_pin 8 "2222"] ≠ [])
  ∧ ∃ w' : World,
      assigning_apply admin_mira (stored twin_users_world) "Asha" "team_lead"
        "Tooling" "Project 2" "" twin_users_world = (true, w').
Proof.
  assert (Hrole : usr_role admin_mira ∈ ["admin"; "superadmin"]) by compute_done.
  assert (Hus : users (stored twin_users_world)
                = Some [asha_with_pin 7 "1111"; asha_with_pin 8 "2222"])
    by reflexivity.
  assert (Hne : [asha_with_pin 7 "1111"; asha_with_pin 8 "2222"] ≠ []) by done.
  split; [by repeat split |].
  destruct (assigning_apply_effects admin_mira (stored twin_users_world) "Asha"
              "team_lead" "Tooling" "Project 2" "" _ twin_users_world
              Hrole Hus Hne) as (w' & us' & Hrun & _).
  by exists w'.
Defined.

(** X18: running the loop of Assign / Update a second time with the same
    form changes nothing more; and a log of roles without two entries for
    the same role, team and project stays so. *)
Theorem assigning_apply_idempotent (sel_name new_role new_team new_project
    new_pin : string) :
  (∀ us : list User,
      assign_in sel_name new_role new_team new_project new_pin
        (assign_in sel_name new_role new_team new_project new_pin us)
      = assign_in sel_name new_role new_team new_project new_pin us)
  ∧ (∀ u : User,
        NoDup (role_key <$> default [] (usr_roles u)) →
        NoDup (role_key
                 <$> default []
                       (usr_roles (assign_user new_role new_team new_project
                                     new_pin u)))).
Proof.
  split.
  - intros us. unfold assign_in. rewrite <- list_fmap_compose.
    apply list_fmap_ext. intros _ u _. simpl.
    destruct (decide (usr_name u = sel_name)) as [Hname | Hname].
    + rewrite !(bool_decide_eq_true_2 (usr_name u = sel_name)) by done.
      apply assign_user_idem.
    + by rewrite !(bool_decide_eq_false_2 (usr_name u = sel_name)) by done.
  - intros u Hnd.
    destruct (assign_user_roles new_role new_team new_project new_pin u)
      as (roles' & -> & _ & _ & Hkeep).
    by apply Hkeep.
Qed.

Lemma assigning_apply_idempotent_witness :
  NoDup (role_key <$> default [] (usr_roles member_asha))
  ∧ NoDup (role_key
             <$> default []
                   (usr_roles (assign_user "team_lead" "Tooling" "Project 2" ""
                                 member_asha))).
Proof.
  assert (Hnd : NoDup (role_key <$> default [] (usr_roles member_asha)))
    by constructor.
  split; [exact Hnd |].
  exact (proj2 (assigning_apply_idempotent "Asha" "team_lead" "Tooling"
                  "Project 2" "") member_asha Hnd).
Defined.

(** ** The Final BOM tab *)

(** X19: the Upload Final BOM button does nothing for a role other than
    project_lead; for a project_lead it stores an upload marked final, by
    that user, for the user's team (the empty string without a team), and
    the list of final uploads of the selected project grows by exactly
    that record, at its end. *)
Theorem final_bom_upload_listed uuid_hex now (user : User) (proj : Project)
    (display : string) (new_final : FileObj) (w : World) :
  (usr_role user ≠ "project_lead" →
   final_bom_upload uuid_hex now user proj display new_final w = (None, w))
  ∧ (usr_role user = "project_lead" →
     ∃ (entry : Upload) (w' : World),
       final_bom_upload uuid_hex now user proj display new_final w
       = (Some entry, w')
       ∧ final_uploads (stored w') (pr_id proj)
         = final_uploads (stored w) (pr_id proj) ++ [entry]
       ∧ up_final entry = true
       ∧ up_uploaded_by entry = usr_name user
       ∧ up_team entry = default "" (usr_team user)
       ∧ up_project_name entry = display).
Proof.
  unfold final_bom_upload. split; intros Hrole.
  - by rewrite bool_decide_eq_false_2.
  - rewrite bool_decide_eq_true_2 by done. unfold mbind, IO_bind.
    destruct (add_upload_spec uuid_hex now (pr_id proj) display
                (default "" (usr_team user)) (usr_name user) new_final true w)
      as (w' & -> & Hfile).
    eexists _, w'. split; [reflexivity |].
    unfold final_uploads. rewrite (stored_data_file _ _ Hfile). simpl.
    rewrite filter_app, filter_cons_True by done. by repeat split.
Qed.

Lemma final_bom_upload_listed_witness :
  usr_role admin_mira ≠ "project_lead"
  ∧ final_bom_upload "e5" "2024-02-02T09:00:00" admin_mira
      {| pr_id := 1; pr_name := "Launcher"; pr_teams := ["Design"] |}
      "Project 1" replacement_file two_uploads_world
    = (None, two_uploads_world).
Proof.
  assert (Hrole : usr_role admin_mira ≠ "project_lead") by discriminate.
  split; [exact Hrole |].
  exact (proj1 (final_bom_upload_listed "e5" "2024-02-02T09:00:00" admin_mira
                  {| pr_id := 1; pr_name := "Launcher"; pr_teams := ["Design"] |}
                  "Project 1" replacement_file two_uploads_world) Hrole).
Defined.

(** What the Remove button of the Final BOM tab leaves when the file
    exists. *)
Lemma final_bom_tab_remove_existing (user : User) (u : Upload) (w : World) :
  usr_role user ∈ ["project_lead"; "admin"; "superadmin"] →
  is_Some (upload_dir w !! up_filename u) →
  ∃ w' : World,
    final_bom_tab_remove user u w = (Some true, w')
    ∧ stored_uploads w' = filter (λ x, up_id x ≠ up_id u) (stored_uploads w)
    ∧ upload_dir w' = delete (up_filename u) (upload_dir w).
Proof.
  intros Hrole [b Hb].
  unfold final_bom_tab_remove, final_bom_remove, os_remove, mbind, IO_bind.
  unfold stored_uploads, stored, load_data.
  rewrite bool_decide_eq_true_2 by done.
  destruct (data_file w); simpl; rewrite Hb; simpl;
    eexists; split; try reflexivity; split; reflexivity.
Qed.

(** X21: where the file of a stored final upload exists and ids are
    pairwise distinct, the Remove button of the Final BOM tab succeeds and
    leaves the same stored uploads and the same upload directory as
    [remove_upload] of that id. *)
Theorem final_bom_tab_remove_agrees (user : User) (u : Upload) (w : World) :
  usr_role user ∈ ["project_lead"; "admin"; "superadmin"] →
  u ∈ stored_uploads w → ids_unique w →
  is_Some (upload_dir w !! up_filename u) →
  ∃ w' : World,
    final_bom_tab_remove user u w = (Some true, w')
    ∧ stored_uploads w' = stored_uploads (remove_upload (up_id u) w).2
    ∧ upload_dir w' = upload_dir (remove_upload (up_id u) w).2.
Proof.
  intros Hrole Hu Huniq Hfile.
  destruct (final_bom_tab_remove_existing user u w Hrole Hfile)
    as (w' & Hrun & Hstored & Hdir).
  exists w'. split; [exact Hrun |]. split.
  - by rewrite Hstored, remove_upload_stored.
  - apply map_eq. intros k. rewrite Hdir, remove_upload_dir, lookup_delete.
    destruct (decide (up_filename u = k)) as [<- | Hne].
    + rewrite decide_True; [done |].
      apply list_elem_of_fmap_2. by apply list_elem_of_filter.
    + rewrite decide_False; [done |].
      intros (v & -> & [Hid Hv]%list_elem_of_filter)%list_elem_of_fmap.
      apply Hne. f_equal.
      by apply (NoDup_fmap_elem_inj up_id (stored_uploads w)).
Qed.

Lemma final_bom_tab_remove_agrees_witness :
  (usr_role lead_ravi ∈ ["project_lead"; "admin"; "superadmin"]
   ∧ final_upload ∈ stored_uploads stored_final_world
   ∧ ids_unique stored_final_world
   ∧ is_Some (upload_dir stored_final_world !! up_filename final_upload))
  ∧ ∃ w' : World,
      final_bom_tab_remove lead_ravi final_upload stored_final_world
      = (Some true, w').
Proof.
  assert (Hrole : usr_role lead_ravi ∈ ["project_lead"; "admin"; "superadmin"])
    by compute_done.
  assert (Hu : final_upload ∈ stored_uploads stored_final_world)
    by (vm_compute; constructor).
  assert (Huniq : ids_unique stored_final_world) by compute_done.
  assert (Hfile : is_Some (upload_dir stored_final_world
                             !! up_filename final_upload)) by compute_done.
  split; [by repeat split |].
  destruct (final_bom_tab_remove_agrees lead_ravi final_upload
              stored_final_world Hrole Hu Huniq Hfile) as (w' & Hrun & _).
  by exists w'.
Defined.

(** ** Project labels *)

Lemma display_map_from_other (ps : list Project) (idx : nat) (m : gmap Z string)
    (k : Z) :
  k ∉ (pr_id <$> ps) → display_map_from idx ps m !! k = m !! k.
Proof.
  revert idx m. induction ps as [|p ps IH]; intros idx m Hk; simpl; [done |].
  rewrite fmap_cons in Hk. apply not_elem_of_cons in Hk as [Hne Hk].
  rewrite IH by done. by rewrite lookup_insert_ne.
Qed.

Lemma display_map_from_keeps (ps : list Project) (idx : nat) (m : gmap Z string)
    (k : Z) :
  is_Some (m !! k) → is_Some (display_map_from idx ps m !! k).
Proof.
  revert idx m. induction ps as [|p ps IH]; intros idx m Hk; simpl; [done |].
  apply IH. destruct (decide (pr_id p = k)) as [-> | Hne].
  - rewrite lookup_insert_eq. by eexists.
  - by rewrite lookup_insert_ne.
Qed.

Lemma display_map_from_lookup (ps : list Project) (idx : nat) (m : gmap Z string)
    (j : nat) (p : Project) :
  NoDup (pr_id <$> ps) → ps !! j = Some p →
  display_map_from idx ps m !! pr_id p = Some ("Project " +:+ pretty (idx + j)%nat).
Proof.
  revert idx m j. induction ps as [|q ps IH]; intros idx m j Hnd Hj; [done |].
  rewrite fmap_cons in Hnd. apply NoDup_cons in Hnd as [Hq Hnd].
  destruct j as [|j]; simpl in *.
  - injection Hj as ->. rewrite display_map_from_other by done.
    by rewrite lookup_insert_eq, Nat.add_0_r.
  - rewrite (IH (S idx) _ j Hnd Hj). do 3 f_equal. lia.
Qed.

(** X22: with pairwise distinct project ids, the project at position [j]
    (from 0) is shown as "Project j+1", two projects never share a label,
    and the label chosen in a select box leads back to the project it was
    drawn for, in any list of offered projects.  The fallback that refills
    an empty map is never needed: the map is empty only without
    projects. *)
Theorem project_labels (d : Document) :
  (project_display_map d = ∅ → get_list (projects d) = [])
  ∧ (NoDup (pr_id <$> get_list (projects d)) →
     (∀ (j : nat) (p : Project),
         get_list (projects d) !! j = Some p →
         display_name (project_display_map d) p = "Project " +:+ pretty (S j))
     ∧ (∀ (options : list Project) (p : Project),
           options ⊆ get_list (projects d) → p ∈ options →
           find_project (project_display_map d)
             (display_name (project_display_map d) p) options = Some p)).
Proof.
  unfold project_display_map. split.
  - destruct (get_list (projects d)) as [|p ps]; [done |]. simpl. intros Hempty.
    assert (Hp : is_Some (display_map_from 2 ps
                            (<[pr_id p := "Project " +:+ pretty 1%nat]> ∅)
                            !! pr_id p)).
    { apply display_map_from_keeps. rewrite lookup_insert_eq. by eexists. }
    rewrite Hempty, lookup_empty in Hp. by destruct Hp.
  - intros Hnd.
    assert (Hlabel : ∀ (j : nat) (p : Project),
               get_list (projects d) !! j = Some p →
               display_name (display_map_from 1 (get_list (projects d)) ∅) p
               = "Project " +:+ pretty (S j)).
    { intros j p Hj. unfold display_name.
      by rewrite (display_map_from_lookup _ 1 ∅ j p Hnd Hj). }
    split; [exact Hlabel |].
    intros options p Hsub Hp.
    induction options as [|q options IH]; [by apply elem_of_nil in Hp |].
    simpl. case_bool_decide as Hq.
    + f_equal.
      assert (Hqin : q ∈ get_list (projects d)) by (apply Hsub; by left).
      assert (Hpin : p ∈ get_list (projects d)) by (by apply Hsub).
      apply list_elem_of_lookup in Hqin as [jq Hjq].
      apply list_elem_of_lookup in Hpin as [jp Hjp].
      rewrite (Hlabel jq q Hjq), (Hlabel jp p Hjp) in Hq.
      apply (inj (String.app "Project ")) in Hq.
      apply (inj pretty) in Hq. injection Hq as ->. congruence.
    + apply elem_of_cons in Hp as [-> | Hp]; [done |].
      apply IH; [| done]. intros x Hx. apply Hsub. by right.
Qed.

Lemma project_labels_witness :
  NoDup (pr_id <$> get_list (projects two_projects_doc))
  ∧ display_name (project_display_map two_projects_doc)
      {| pr_id := 20; pr_name := "Capsule"; pr_teams := ["Design"] |}
    = "Project 2".
Proof.
  assert (Hnd : NoDup (pr_id <$> get_list (projects two_projects_doc)))
    by compute_done.
  split; [exact Hnd |].
  exact (proj1 (proj2 (project_labels two_projects_doc) Hnd) 1%nat
           {| pr_id := 20; pr_name := "Capsule"; pr_teams := ["Design"] |}
           eq_refl).
Defined.

(** ** Order of the writes *)

Lemma create_trace (a : CreateArgs) (w : World) :
  trace (create a w).2
  = trace (load_data w).2
    ++ [EvWriteBlob (storage_name (ca_uuid_hex a) (ca_file_obj a))]
    ++ [EvSave (stored (create a w).2)].
Proof.
  unfold create, add_upload, stored, load_data, mbind, IO_bind.
  destruct (data_file w); simpl; by rewrite <- !app_assoc.
Qed.

Lemma replace_at_trace uuid_hex now (d : Document) (i : nat) (u : Upload)
    file_obj uploaded_by (w : World) :
  ∃ evs : list Event,
    trace (replace_at uuid_hex now d i u file_obj uploaded_by w).2
    = trace w ++ evs
      ++ [EvSave (stored (replace_at uuid_hex now d i u file_obj uploaded_by w).2)]
    ∧ Forall (λ e, ¬ is_save e) evs.
Proof.
  unfold replace_at, stored, load_data, mbind, IO_bind, unlink_if_exists.
  destruct (upload_dir w !! up_filename u); simpl.
  - exists [EvUnlink (up_filename u); EvWriteBlob (storage_name uuid_hex file_obj)].
    split; [by rewrite <- !app_assoc | repeat constructor; by intros ?].
  - exists [EvWriteBlob (storage_name uuid_hex file_obj)].
    split; [by rewrite <- !app_assoc | repeat constructor; by intros ?].
Qed.

(** X23: each operation of the registry rewrites the data file once, as
    its last step: [add_upload] after writing the file, [remove_upload]
    after deleting the files, [replace_upload] on a stored id after
    deleting the old file and writing the new one.  ([load_data] may have
    written the default document before.) *)
Theorem registry_saves_last (w : World) :
  (∀ a : CreateArgs,
      ∃ evs : list Event,
        trace (create a w).2
        = trace (load_data w).2 ++ evs ++ [EvSave (stored (create a w).2)]
        ∧ Forall (λ e, ¬ is_save e) evs)
  ∧ (∀ upload_id : Z,
      ∃ evs : list Event,
        trace (remove_upload upload_id w).2
        = trace (load_data w).2 ++ evs
          ++ [EvSave (stored (remove_upload upload_id w).2)]
        ∧ Forall (λ e, ¬ is_save e) evs)
  ∧ (∀ (uuid_hex now : string) (upload_id : Z) (file_obj : FileObj)
       (uploaded_by : string),
      upload_id ∈ (up_id <$> stored_uploads w) →
      ∃ evs : list Event,
        trace (replace_upload uuid_hex now upload_id file_obj uploaded_by w).2
        = trace (load_data w).2 ++ evs
          ++ [EvSave (stored (replace_upload uuid_hex now upload_id file_obj
                                uploaded_by w).2)]
        ∧ Forall (λ e, ¬ is_save e) evs).
Proof.
  split; [| split].
  - intros a. eexists. split; [apply create_trace |].
    repeat constructor. by intros ?.
  - intros upload_id.
    destruct (remove_upload_removes_record upload_id w) as [_ [ks Hks]].
    exists (EvUnlink <$> ks). split.
    + rewrite Hks. do 3 f_equal.
      by rewrite (stored_data_file _ _ (remove_upload_data_file upload_id w)).
    + apply Forall_fmap, Forall_forall. by intros k _ ?.
  - intros uuid_hex now upload_id file_obj uploaded_by Hin.
    unfold replace_upload, stored_uploads, stored, mbind, IO_bind in *.
    destruct (load_data w) as [d w1]. simpl in *.
    destruct (replace_loop_first uuid_hex now upload_id file_obj uploaded_by d
                (get_list (uploads d)) 0 w1 Hin) as (i & u & Hi & Hu & ->).
    apply replace_at_trace.
Qed.

Lemma registry_saves_last_witness :
  2 ∈ (up_id <$> stored_uploads two_uploads_world)
  ∧ ∃ evs : list Event,
      trace (replace_upload "d4" "2024-01-02T08:00:00" 2 replacement_file
               "ravi" two_uploads_world).2
      = trace (load_data two_uploads_world).2 ++ evs
        ++ [EvSave (stored (replace_upload "d4" "2024-01-02T08:00:00" 2
                              replacement_file "ravi" two_uploads_world).2)].
Proof.
  assert (Hin : 2 ∈ (up_id <$> stored_uploads two_uploads_world)) by compute_done.
  split; [exact Hin |].
  destruct (proj2 (proj2 (registry_saves_last two_uploads_world)) "d4"
              "2024-01-02T08:00:00" 2 replacement_file "ravi" Hin)
    as (evs & Htrace & _).
  by exists evs.
Defined.
